(** * A shallow embedding of [mypyc/build.py]

    The extension-assembly layer of mypyc: the choice between a single
    extension module and a shared library with one shim per module, the
    shared-library naming, the shim sources, the relative link path of a
    shim, and the configuration checks of [get_mypy_config].

    Python strings are [String.string]; a Python [str] is read as a sequence
    of code points below 256, and [str.encode()] is its UTF-8 encoding.
    Integers of the SHA-1 computation are [Z] with their 32-bit wrap-around
    written out. *)

From Stdlib Require Import ZArith List String Ascii Bool Lia Permutation.
Import ListNotations.
Open Scope string_scope.
Set Warnings "-register-all".


(* ------------------------------------------------------------------ *)
(** ** Python string helpers *)

Module Py.

(** [sep.join(xs)] *)
Fixpoint join (sep : string) (xs : list string) : string :=
  match xs with
  | [] => ""
  | [x] => x
  | x :: rest => x ++ sep ++ join sep rest
  end.

(** [c in s] for a one-character [c] *)
Fixpoint contains_char (c : ascii) (s : string) : bool :=
  match s with
  | EmptyString => false
  | String d s' => Ascii.eqb c d || contains_char c s'
  end.

(** [s.split(c)] for a one-character separator: always at least one piece. *)
Fixpoint split (c : ascii) (s : string) : list string :=
  match s with
  | EmptyString => [""]
  | String d s' =>
      if Ascii.eqb c d then "" :: split c s'
      else match split c s' with
           | [] => [String d ""]
           | p :: ps => String d p :: ps
           end
  end.

(** [xs[-1]] on a non-empty list ([split] never returns an empty one). *)
Definition last_piece (xs : list string) : string := last xs "".

(** Number of occurrences of a character. *)
Fixpoint count_char (c : ascii) (s : string) : nat :=
  match s with
  | EmptyString => 0
  | String d s' => (if Ascii.eqb c d then 1 else 0) + count_char c s'
  end.

(** [s.replace(a, b)] for one-character [a]. *)
Fixpoint replace_char (a : ascii) (b : string) (s : string) : string :=
  match s with
  | EmptyString => EmptyString
  | String d s' => (if Ascii.eqb a d then b else String d "") ++ replace_char a b s'
  end.

Definition slash : ascii := "/"%char.

(** [s.endswith('/')] *)
Fixpoint ends_with_slash (s : string) : bool :=
  match s with
  | EmptyString => false
  | String c EmptyString => Ascii.eqb c slash
  | String _ s' => ends_with_slash s'
  end.

(** [posixpath.join(a, *p)] *)
Definition path_join (a : string) (p : list string) : string :=
  fold_left
    (fun path b =>
       match b with
       | String c _ => if Ascii.eqb c slash then b
                       else if (String.eqb path "" || ends_with_slash path)%bool
                            then path ++ b else path ++ "/" ++ b
       | EmptyString =>
           if (String.eqb path "" || ends_with_slash path)%bool
           then path else path ++ "/"
       end) p a.

(** [posixpath.split(p)[1]]: what follows the last ['/']. *)
Fixpoint basename (s : string) : string :=
  match s with
  | EmptyString => EmptyString
  | String c s' =>
      if contains_char slash s' then basename s'
      else if Ascii.eqb c slash then s' else s
  end.

End Py.

Module PyTests.
Import Py.
Example split_abc : split "."%char "a.b.c" = ["a"; "b"; "c"]. Proof. reflexivity. Qed.
Example split_top : split "."%char "foo" = ["foo"]. Proof. reflexivity. Qed.
Example join_dd : path_join ".." [".."] = "../..". Proof. reflexivity. Qed.
Example base1 : basename "pkg/sub/__init__.py" = "__init__.py". Proof. reflexivity. Qed.
Example base2 : basename "__init__.py" = "__init__.py". Proof. reflexivity. Qed.
Example base3 : basename "pkg/" = "". Proof. reflexivity. Qed.
End PyTests.

(* ------------------------------------------------------------------ *)
(** ** [hashlib.sha1] and [str.encode()]

    SHA-1 (FIPS 180-4) over a list of byte values, with 32-bit words as [Z]
    reduced modulo [2^32] after every addition. *)

Module Sha1.
Open Scope Z_scope.

Definition mask32 (x : Z) : Z := Z.land x (Z.ones 32).
Definition add32 (x y : Z) : Z := mask32 (x + y).
Definition rotl (n : Z) (x : Z) : Z :=
  mask32 (Z.lor (Z.shiftl x n) (Z.shiftr x (32 - n))).
Definition lnot32 (x : Z) : Z := Z.lxor x (Z.ones 32).

(** [str.encode()]: UTF-8 of each code point (all below 256 here). *)
Definition utf8_of_code (c : Z) : list Z :=
  if c <? 128 then [c]
  else [Z.lor 192 (Z.shiftr c 6); Z.lor 128 (Z.land c 63)].

Definition encode (s : string) : list Z :=
  flat_map (fun a => utf8_of_code (Z.of_nat (nat_of_ascii a))) (list_ascii_of_string s).

(** big-endian bytes of a word of [n] bytes *)
Fixpoint be_bytes (n : nat) (x : Z) : list Z :=
  match n with
  | O => []
  | S k => (be_bytes k (Z.shiftr x 8) ++ [Z.land x 255])%list
  end.

(** message padding: [0x80], zeros up to 56 mod 64, then the bit length *)
Definition pad (msg : list Z) : list Z :=
  let len := Z.of_nat (List.length msg) in
  let zeros := Z.to_nat ((55 - len) mod 64) in
  (msg ++ [128] ++ repeat 0 zeros ++ be_bytes 8 (len * 8))%list.

Fixpoint words_of (n : nat) (bs : list Z) : list Z :=
  match n, bs with
  | S k, b0 :: b1 :: b2 :: b3 :: rest =>
      (b0 * 16777216 + b1 * 65536 + b2 * 256 + b3) :: words_of k rest
  | _, _ => []
  end.

(** message schedule: [w[t] = rotl 1 (w[t-3] ^ w[t-8] ^ w[t-14] ^ w[t-16])],
    built on a reversed list so the last 16 words are at hand *)
Fixpoint extend (n : nat) (rev_w : list Z) : list Z :=
  match n with
  | O => rev_w
  | S k =>
      let w t := nth t rev_w 0 in
      extend k (rotl 1 (Z.lxor (Z.lxor (w 2%nat) (w 7%nat))
                               (Z.lxor (w 13%nat) (w 15%nat))) :: rev_w)
  end.

Definition schedule (block16 : list Z) : list Z := rev (extend 64 (rev block16)).

Record hstate := HS { ha : Z; hb : Z; hc : Z; hd : Z; he : Z }.

Definition h_init : hstate :=
  HS 1732584193 4023233417 2562383102 271733878 3285377520.

Definition round_fk (t : nat) (b c d : Z) : Z * Z :=
  if (t <? 20)%nat then (Z.lor (Z.land b c) (Z.land (lnot32 b) d), 1518500249)
  else if (t <? 40)%nat then (Z.lxor (Z.lxor b c) d, 1859775393)
  else if (t <? 60)%nat then
    (Z.lor (Z.lor (Z.land b c) (Z.land b d)) (Z.land c d), 2400959708)
  else (Z.lxor (Z.lxor b c) d, 3395469782).

Definition round (s : hstate) (tw : nat * Z) : hstate :=
  let (t, w) := tw in
  let (f, k) := round_fk t (hb s) (hc s) (hd s) in
  let temp := add32 (add32 (add32 (add32 (rotl 5 (ha s)) f) (he s)) k) w in
  HS temp (ha s) (rotl 30 (hb s)) (hc s) (hd s).

Definition compress (h : hstate) (block16 : list Z) : hstate :=
  let w := schedule block16 in
  let s := fold_left round (combine (seq 0 80) w) h in
  HS (add32 (ha h) (ha s)) (add32 (hb h) (hb s)) (add32 (hc h) (hc s))
     (add32 (hd h) (hd s)) (add32 (he h) (he s)).

Fixpoint blocks (fuel : nat) (bs : list Z) : list (list Z) :=
  match fuel with
  | O => []
  | S k =>
      match bs with
      | [] => []
      | _ => words_of 16 (firstn 64 bs) :: blocks k (skipn 64 bs)
      end
  end.

Definition digest_words (msg : list Z) : list Z :=
  let p := pad msg in
  let h := fold_left compress (blocks (List.length p) p) h_init in
  [ha h; hb h; hc h; hd h; he h].

(** [hexdigest()]: eight lowercase hex characters per word *)
Definition hex_char (d : Z) : ascii :=
  ascii_of_nat (Z.to_nat (if d <? 10 then 48 + d else 87 + d)).

Fixpoint hex_word (n : nat) (x : Z) : string :=
  match n with
  | O => EmptyString
  | S k => hex_word k (Z.shiftr x 4) ++ String (hex_char (Z.land x 15)) EmptyString
  end.

Definition hexdigest (msg : list Z) : string :=
  fold_right (fun w acc => hex_word 8 w ++ acc) EmptyString (digest_words msg).

End Sha1.

(** [s[:n]] *)
Definition str_prefix (n : nat) (s : string) : string := substring 0 n s.

(** [shared_lib_name]:
<<
    h = hashlib.sha1()
    h.update(','.join(modules).encode())
    return 'mypyc_%s' % h.hexdigest()[:20]
>> *)
Definition shared_lib_name (modules : list string) : string :=
  "mypyc_" ++ str_prefix 20 (Sha1.hexdigest (Sha1.encode (Py.join "," modules))).

Module Sha1Tests.
Example sha1_abc :
  Sha1.hexdigest (Sha1.encode "abc") = "a9993e364706816aba3e25717850c26c9cd0d89d".
Proof. vm_compute. reflexivity. Qed.
Example name_pkg :
  shared_lib_name ["pkg.mod1"; "pkg.mod2"] = "mypyc_bacd5eb729c309658bfb".
Proof. vm_compute. reflexivity. Qed.
Example name_ba : shared_lib_name ["b"; "a"] = "mypyc_fc2e7ee73c4f69821b90".
Proof. vm_compute. reflexivity. Qed.
End Sha1Tests.

(* ------------------------------------------------------------------ *)
(** ** Data model *)

(** [mypy.build.BuildSource]: the module name and its (optional) path. *)
Record BuildSource := MkSource { module : string; src_path : option string }.

(** [MypycifyExtension]: a setuptools [Extension] with mypyc's two extra
    fields. The back-reference [mypyc_shared_target] is the shared
    library's extension object itself. *)
Inductive MypycifyExtension := MkExt {
  ext_name : string;
  ext_sources : list string;
  ext_include_dirs : list string;
  ext_extra_compile_args : list string;
  is_mypyc_shared : bool;
  mypyc_shared_target : option MypycifyExtension
}.

(** Exceptions that escape the code modelled here. *)
Inductive PyExc := IndexError | KeyError | AssertionError | FileNotFoundError (p : string).

(** Outcome of a Python call: a value, a [SystemExit] with the process exit
    status and message, or a raised exception. *)
Inductive PyResult (A : Type) :=
| POk (a : A)
| PExit (status : nat) (msg : string)
| PRaise (e : PyExc).
Arguments POk {A} a.
Arguments PExit {A} status msg.
Arguments PRaise {A} e.

(** The process state the code touches: existing directories, written files
    and the Python list objects reachable by the caller (a heap indexed by
    [nat]). *)
Record State := MkState {
  dirs : list string;
  files : list (string * string);
  heap : list (list string)
}.

(** A state and error monad. *)
Definition M (A : Type) := State -> PyResult A * State.

Definition ret {A} (a : A) : M A := fun st => (POk a, st).
Definition bind {A B} (m : M A) (f : A -> M B) : M B :=
  fun st => match m st with
            | (POk a, st') => f a st'
            | (PExit c s, st') => (PExit c s, st')
            | (PRaise e, st') => (PRaise e, st')
            end.
Definition raise {A} (e : PyExc) : M A := fun st => (PRaise e, st).
Definition lift {A} (r : PyResult A) : M A := fun st => (r, st).

Notation "x <- m ;; k" := (bind m (fun x => k))
  (at level 61, m at next level, right associativity).
Notation "m ;;; k" := (bind m (fun _ => k)) (at level 61, right associativity).

(** [sys.exit(message)]: a [SystemExit] whose argument is a string exits
    with status 1 after printing the message. *)
Definition fail {A} (message : string) : PyResult A := PExit 1 message.

(** [open(path, 'w').write(text)]: the file now holds [text]. *)
Definition write_file (path text : string) : M unit :=
  fun st => (POk tt, MkState (dirs st)
                             ((path, text) :: filter (fun pt => negb (String.eqb (fst pt) path)) (files st))
                             (heap st)).

Definition read_file (st : State) (path : string) : option string :=
  option_map snd (find (fun pt => String.eqb (fst pt) path) (files st)).

(** Whether [p] names an existing directory or an existing regular file. *)
Definition path_exists (st : State) (p : string) : bool :=
  existsb (String.eqb p) (dirs st) || existsb (fun pt => String.eqb (fst pt) p) (files st).

(** [try: os.mkdir(d) except FileExistsError: pass]: [os.mkdir] raises
    [FileExistsError] when [d] exists, as a directory or as a regular file;
    the error is swallowed and nothing is created. *)
Definition mkdir_exist_ok (d : string) : M unit :=
  fun st => (POk tt, if path_exists st d then st
                     else MkState (d :: dirs st) (files st) (heap st)).

(** [shutil.copyfile(src, dst)] *)
Definition copyfile (src dst : string) : M unit :=
  fun st => match read_file st src with
            | Some text => write_file dst text st
            | None => (PRaise (FileNotFoundError src), st)
            end.

(* ------------------------------------------------------------------ *)
(** ** [str.format] on the shim templates *)

Module Format.

(** [tmpl.format(...)] with the keyword arguments [env]: [{{] and [}}] are literal braces, [{name}] is
    replaced by [env[name]]; [None] where Python raises ([KeyError] or
    [ValueError]). [field] holds the name being read inside braces. *)
Fixpoint format (env : list (string * string)) (field : option string) (s : string)
  : option string :=
  match s, field with
  | EmptyString, None => Some EmptyString
  | EmptyString, Some _ => None
  | String c r, Some acc =>
      if Ascii.eqb c "}"%char then
        match find (fun kv => String.eqb (fst kv) acc) env, format env None r with
        | Some (_, v), Some rest => Some (v ++ rest)
        | _, _ => None
        end
      else format env (Some (acc ++ String c EmptyString)) r
  | String c r, None =>
      if Ascii.eqb c "{"%char then
        match r with
        | String d r' =>
            if Ascii.eqb d "{"%char
            then option_map (String c) (format env None r')
            else format env (Some EmptyString) r
        | EmptyString => format env (Some EmptyString) r
        end
      else if Ascii.eqb c "}"%char then
        match r with
        | String d r' =>
            if Ascii.eqb d "}"%char then option_map (String c) (format env None r')
            else None
        | EmptyString => None
        end
      else option_map (String c) (format env None r)
  end.

End Format.

Definition dq : string := String (ascii_of_nat 34) EmptyString.

Definition shim_template_unix : string :=
"#include <Python.h>

PyObject *CPyInit_{full_modname}(void);

PyMODINIT_FUNC
PyInit_{modname}(void)
{{
    return CPyInit_{full_modname}();
}}
".

(** The template is a raw string: its first line is a lone backslash. *)
Definition shim_template_windows : string :=
"\
#include <Python.h>
#include <windows.h>
#include <stdlib.h>
#include <stdio.h>

EXTERN_C IMAGE_DOS_HEADER __ImageBase;

typedef PyObject *(__cdecl *INITPROC)();

PyMODINIT_FUNC
PyInit_{modname}(void)
{{
    char path[MAX_PATH];
    char drive[MAX_PATH];
    char directory[MAX_PATH];
    HINSTANCE hinstLib;
    INITPROC proc;

    // get the file name of this dll
    DWORD res = GetModuleFileName((HINSTANCE)&__ImageBase, path, sizeof(path));
    if (res == 0 || res == sizeof(path)) {{
        PyErr_SetString(PyExc_RuntimeError, " ++ dq ++ "GetModuleFileName failed" ++ dq ++ ");
        return NULL;
    }}

    // find the directory this dll is in
    _splitpath(path, drive, directory, NULL, NULL);
    // and use it to construct a path to the shared library
    snprintf(path, sizeof(path), " ++ dq ++ "%s%s%s" ++ dq ++ ", drive, directory, MYPYC_LIBRARY);

    hinstLib = LoadLibrary(path);
    if (!hinstLib) {{
        PyErr_SetString(PyExc_RuntimeError, " ++ dq ++ "LoadLibrary failed" ++ dq ++ ");
        return NULL;
    }}
    proc = (INITPROC)GetProcAddress(hinstLib, " ++ dq ++ "CPyInit_{full_modname}" ++ dq ++ ");
    if (!proc) {{
        PyErr_SetString(PyExc_RuntimeError, " ++ dq ++ "GetProcAddress failed" ++ dq ++ ");
        return NULL;
    }}

    return proc();
}}

// distutils sometimes spuriously tells cl to export CPyInit___init__,
// so provide that so it chills out
PyMODINIT_FUNC PyInit___init__(void) {{ return PyInit_{modname}(); }}
".

(* ------------------------------------------------------------------ *)
(** ** More path and list helpers *)

Module Py2.

(** index of the last occurrence of [c] *)
Fixpoint rfind (c : ascii) (s : string) : option nat :=
  match s with
  | EmptyString => None
  | String d s' =>
      match rfind c s' with
      | Some i => Some (S i)
      | None => if Ascii.eqb c d then Some 0 else None
      end
  end.

(** [os.path.splitext(p)[1]] (posix): the suffix of the base name from its
    last dot, when a character other than a dot precedes that dot in the
    base name. *)
Definition splitext_ext (p : string) : string :=
  let b := Py.basename p in
  match rfind "."%char b with
  | Some i =>
      if existsb (fun c => negb (Ascii.eqb c "."%char)) (list_ascii_of_string (substring 0 i b))
      then substring i (String.length b - i) b
      else EmptyString
  | None => EmptyString
  end.

(** [needle in hay] for strings *)
Definition str_contains (needle hay : string) : bool :=
  match String.index 0 needle hay with Some _ => true | None => false end.

(** [xs[i] = v] on an index in range *)
Fixpoint list_set {A} (xs : list A) (i : nat) (v : A) : list A :=
  match xs, i with
  | [], _ => []
  | _ :: r, O => v :: r
  | x :: r, S k => x :: list_set r k v
  end.

End Py2.

(** [mypy.options.Options], the fields read or written here. *)
Record Options := MkOptions {
  python_version_major : nat;
  strict_optional : bool;
  show_traceback : bool;
  export_types : bool;
  incremental : bool;
  mypyc_modules : list string  (* modules with [per_module_options[m]['mypyc'] = True] *)
}.

(* ------------------------------------------------------------------ *)
(** ** The build functions *)

Section Build.

(** [mypyc.namegen.exported_name] *)
Variable exported_name : string -> string.
(** [include_dir()] *)
Variable include_dir : string.
(** [sys.platform] *)
Variable platform : string.

Definition shim_template : string :=
  if String.eqb platform "win32" then shim_template_windows else shim_template_unix.

(** The text written by [generate_c_extension_shim]; [None] where
    [str.format] would raise. *)
Definition shim_text (full_module_name module_name : string) : option string :=
  Format.format [("modname", module_name);
                 ("full_modname", exported_name full_module_name)] None shim_template.

(** [generate_c_extension_shim] *)
Definition generate_c_extension_shim (full_module_name module_name dirname : string)
  : M string :=
  let cname := Py.replace_char "."%char "___" full_module_name ++ ".c" in
  let cpath := Py.path_join dirname [cname] in
  match shim_text full_module_name module_name with
  | Some text => write_file cpath text;;; ret cpath
  | None => raise KeyError
  end.

(** The name given to the shim extension of [source] (lines 295-298). *)
Definition shim_ext_name (module_name path : string) : string :=
  if String.eqb (Py.basename path) "__init__.py"
  then module_name ++ ".__init__" else module_name.

(** The loop of [build_using_shared_lib] over the sources. *)
Fixpoint build_shims (shared_lib : MypycifyExtension) (sources : list BuildSource)
         (build_dir : string) (extra_compile_args : list string)
  : M (list MypycifyExtension) :=
  match sources with
  | [] => ret []
  | source :: rest =>
      let module_name := Py.last_piece (Py.split "."%char (module source)) in
      shim_file <- generate_c_extension_shim (module source) module_name build_dir ;;
      match src_path source with
      | None | Some EmptyString => raise AssertionError
      | Some p =>
          let ext := MkExt (shim_ext_name (module source) p) [shim_file] []
                           extra_compile_args false (Some shared_lib) in
          exts <- build_shims shared_lib rest build_dir extra_compile_args ;;
          ret (ext :: exts)
      end
  end.

Definition shared_lib_ext (lib_name : string) (cfiles extra_compile_args : list string)
  : MypycifyExtension :=
  MkExt ("lib" ++ lib_name) cfiles [include_dir] extra_compile_args true None.

(** [build_using_shared_lib] *)
Definition build_using_shared_lib (sources : list BuildSource) (lib_name : string)
           (cfiles : list string) (build_dir : string) (extra_compile_args : list string)
  : M (list MypycifyExtension) :=
  let shared_lib := shared_lib_ext lib_name cfiles extra_compile_args in
  shims <- build_shims shared_lib sources build_dir extra_compile_args ;;
  ret (shared_lib :: shims).

(** [build_single_module]: [sources[0]] raises [IndexError] on an empty list. *)
Definition build_single_module (sources : list BuildSource) (cfiles extra_compile_args : list string)
  : PyResult (list MypycifyExtension) :=
  match sources with
  | [] => PRaise IndexError
  | s :: _ => POk [MkExt (module s) cfiles [include_dir] extra_compile_args false None]
  end.

(** [len(sources) > 1 or any('.' in x.module for x in sources)] *)
Definition use_shared_lib (sources : list BuildSource) : bool :=
  (1 <? List.length sources)%nat || existsb (fun x => Py.contains_char "."%char (module x)) sources.

(** [MypycifyBuildExt._get_rt_lib_path] on the extension's name (posix
    [os.path.join]). *)
Definition get_rt_lib_path (ext_nm : string) : string :=
  let module_parts := Py.split "."%char ext_nm in
  if (1 <? List.length module_parts)%nat then
    match repeat ".." (List.length module_parts - 1) with
    | [] => "."
    | p :: ps => Py.path_join p ps
    end
  else ".".

End Build.

Section Mypycify.

Variable exported_name : string -> string.
Variable include_dir : string.
Variable platform : string.
(** [glob.glob(pattern)] on the current file system *)
Variable glob : State -> string -> list string.
(** [mypy.main.process_options(args)] *)
Variable process_options : list string -> PyResult (list BuildSource * Options).
(** [generate_c(sources, options, lib_name)]: the translation to C, whose
    result is the list of (file name, text) pairs and the IR dump; it
    writes nothing, and fails with [fail('Typechecking failure')]. *)
Variable generate_c : list BuildSource -> Options -> option string
                      -> PyResult (list (string * string) * string).
(** [compiler.compiler_type] and [compiler.compiler[0]] *)
Variable compiler_type : string.
Variable compiler0 : string.

(** [mypy_options = mypy_options or []]: the caller's list when it is a
    non-empty list, otherwise a fresh empty list. *)
Definition options_list (mypy_options : option nat) : M nat :=
  fun st =>
    let fresh := (POk (List.length (heap st)),
                  MkState (dirs st) (files st) (heap st ++ [[]])%list) in
    match mypy_options with
    | Some l => match nth l (heap st) [] with
                | _ :: _ => (POk l, st)
                | [] => fresh
                end
    | None => fresh
    end.

(** [lst.extend(xs)] on the list object at [l] ([append] is [extend] of
    one element). *)
Definition extend (l : nat) (xs : list string) : M unit :=
  fun st => (POk tt, MkState (dirs st) (files st)
                             (Py2.list_set (heap st) l (nth l (heap st) [] ++ xs)%list)).

Definition read_list (l : nat) : M (list string) :=
  fun st => (POk (nth l (heap st) []), st).

(** The checks [get_mypy_config] makes on the result of
    [process_options] (lines 112-125). *)
Definition check_config (r : PyResult (list BuildSource * Options))
  : PyResult (list BuildSource * Options) :=
  match r with
  | POk (sources, options) =>
      if Nat.eqb (python_version_major options) 2 then fail "Python 2 not supported"
      else if negb (strict_optional options)
      then fail "Disabling strict optional checking not supported"
      else
        let options' := MkOptions (python_version_major options) (strict_optional options)
                                  true true false
                                  (mypyc_modules options ++ map module sources)%list in
        POk (sources, options')
  | PExit c m => PExit c m
  | PRaise e => PRaise e
  end.

(** [get_mypy_config] *)
Definition get_mypy_config (paths : list string) (mypy_options : option nat)
  : M (list BuildSource * Options) :=
  l <- options_list mypy_options ;;
  extend l ["--"] ;;;
  extend l paths ;;;
  args <- read_list l ;;
  lift (check_config (process_options args)).

(** The compiler flags of [mypycify] (lines 391-417). *)
Definition compute_cflags (opt_level : string) (multi_file : bool) : list string :=
  if String.eqb compiler_type "unix" then
    ([String.append "-O" opt_level; "-Werror"; "-Wno-unused-function"; "-Wno-unused-label";
     "-Wno-unreachable-code"; "-Wno-unused-variable"; "-Wno-trigraphs";
     "-Wno-unused-command-line-argument"]
    ++ (if Py2.str_contains "gcc" compiler0 then ["-Wno-unused-but-set-variable"] else []))%list
  else if String.eqb compiler_type "msvc" then
    let opt_level' := if String.eqb opt_level "3" then "2" else opt_level in
    ([String.append "/O" opt_level'; "/wd4102"; "/wd4101"; "/wd4146"]
    ++ (if multi_file then ["/GL-"; "/wd9025"] else []))%list
  else [].

(** Writing out the generated C files, keeping the names of the [.c] ones. *)
Fixpoint write_cfiles (build_dir : string) (cfiles : list (string * string)) : M (list string) :=
  match cfiles with
  | [] => ret []
  | (cfile, ctext) :: rest =>
      let cfile' := Py.path_join build_dir [cfile] in
      write_file cfile' ctext ;;;
      names <- write_cfiles build_dir rest ;;
      ret (if String.eqb (Py2.splitext_ext cfile') ".c" then cfile' :: names else names)
  end.

Definition build_dir : string := "build".

(** [mypycify] after [get_mypy_config] (lines 365-430). *)
Definition build_from_config (sources : list BuildSource) (options : Options)
           (opt_level : string) (multi_file skip_cgen : bool) : M (list MypycifyExtension) :=
  let use_shared := use_shared_lib sources in
  let lib_name := if use_shared then Some (shared_lib_name (map module sources)) else None in
  cfilenames <-
    (if negb skip_cgen then
       gen <- lift (generate_c sources options lib_name) ;;
       let '(cfiles, ops_text) := gen in
       write_file (Py.path_join build_dir ["ops.txt"]) ops_text ;;;
       write_cfiles build_dir cfiles
     else fun st => (POk (glob st (Py.path_join build_dir ["*.c"])), st)) ;;
  let cflags := compute_cflags opt_level multi_file in
  let rt_file := Py.path_join build_dir ["CPy.c"] in
  copyfile (Py.path_join include_dir ["CPy.c"]) rt_file ;;;
  let cfilenames' := (cfilenames ++ [rt_file])%list in
  match lib_name with
  | Some lib => build_using_shared_lib exported_name include_dir platform
                  sources lib cfilenames' build_dir cflags
  | None => lift (build_single_module include_dir sources cfilenames' cflags)
  end.

(** [mypycify]. [setup_mypycify_vars()] and the creation of the compiler
    object only rewrite [sysconfig] variables and are not modelled; the
    compiler enters through [compiler_type] and [compiler0]. *)
Definition mypycify (paths : list string) (mypy_options : option nat) (opt_level : string)
           (multi_file skip_cgen : bool) : M (list MypycifyExtension) :=
  fun st0 =>
  let expanded_paths := flat_map (glob st0) paths in
  (mkdir_exist_ok build_dir ;;;
   cfg <- get_mypy_config expanded_paths mypy_options ;;
   let '(sources, options) := cfg in
   build_from_config sources options opt_level multi_file skip_cgen) st0.

End Mypycify.

(** The file [generate_c_extension_shim] writes for the module [full]. *)
Definition shim_path (dirname full : string) : string :=
  Py.path_join dirname [Py.replace_char "."%char "___" full ++ ".c"].

(* ------------------------------------------------------------------ *)
(** ** [mypyc/common.py] *)

(** [decorator_helper_name]:
    ['__mypyc_{}_decorator_helper__'.format(func_name)] *)
Definition decorator_helper_name (func_name : string) : string :=
  "__mypyc_" ++ func_name ++ "_decorator_helper__".

(* ------------------------------------------------------------------ *)
(** ** [setup_mypycify_vars] *)

Module Py3.

(** [s.startswith(pre)] *)
Fixpoint starts_with (pre s : string) : bool :=
  match pre, s with
  | EmptyString, _ => true
  | String c pre', String d s' => Ascii.eqb c d && starts_with pre' s'
  | String _ _, EmptyString => false
  end.

(** [s.replace(old, new)] for a non-empty [old]: the occurrences are
    replaced from left to right, without overlap. [fuel] is the length of
    [s]. *)
Fixpoint replace_fuel (fuel : nat) (old new s : string) : string :=
  match fuel with
  | O => s
  | S k =>
      match s with
      | EmptyString => EmptyString
      | String c s' =>
          if starts_with old s
          then new ++ replace_fuel k old new (substring (String.length old)
                                                (String.length s - String.length old) s)
          else String c (replace_fuel k old new s')
      end
  end.

Definition replace (old new s : string) : string :=
  replace_fuel (String.length s) old new s.

(** [needle in hay] *)
Fixpoint contains (needle hay : string) : bool :=
  starts_with needle hay ||
  match hay with
  | EmptyString => false
  | String _ hay' => contains needle hay'
  end.

End Py3.

(** The configuration variables of [sysconfig], as the strings they hold. *)
Definition ConfigVars := list (string * string).

Definition var_lookup (vars : ConfigVars) (k : string) : option string :=
  option_map snd (find (fun kv => String.eqb (fst kv) k) vars).

(** [vars[k] = vars[k].replace(old, new)]; [KeyError] on a missing key. *)
Definition var_replace (k old new : string) (vars : ConfigVars) : PyResult ConfigVars :=
  match var_lookup vars k with
  | Some v => POk ((k, Py3.replace old new v)
                   :: filter (fun kv => negb (String.eqb (fst kv) k)) vars)
  | None => PRaise KeyError
  end.

(** [setup_mypycify_vars] on the platform [platform]: the new variables. *)
Definition setup_mypycify_vars (platform : string) (vars : ConfigVars) : PyResult ConfigVars :=
  if String.eqb platform "darwin" then
    match var_replace "LDSHARED" "-bundle" "-dynamiclib" vars with
    | POk v1 =>
        match var_replace "LDFLAGS" "-arch i386" "" v1 with
        | POk v2 => var_replace "CFLAGS" "-arch i386" "" v2
        | r => r
        end
    | r => r
    end
  else POk vars.

(* ------------------------------------------------------------------ *)
(** ** [MypycifyBuildExt.build_extension] *)

Module Py4.

(** [s.rstrip('/')] *)
Definition rstrip_slash (s : string) : string :=
  let fix drop (cs : list ascii) : list ascii :=
    match cs with
    | c :: r => if Ascii.eqb c Py.slash then drop r else cs
    | [] => []
    end in
  string_of_list_ascii (rev (drop (rev (list_ascii_of_string s)))).

(** [posixpath.split(p)]:
<<
    i = p.rfind('/') + 1
    head, tail = p[:i], p[i:]
    if head and head != '/'*len(head):
        head = head.rstrip('/')
    return head, tail
>> *)
Definition posix_split (p : string) : string * string :=
  let i := match Py2.rfind Py.slash p with Some k => S k | None => 0 end in
  let head := substring 0 i p in
  let tail := substring i (String.length p - i) p in
  let all_slashes := forallb (fun c => Ascii.eqb c Py.slash) (list_ascii_of_string head) in
  (if negb (String.eqb head "") && negb all_slashes then rstrip_slash head else head, tail).

(** [posixpath.splitext(p)[0]]: [p] without its extension [splitext_ext p],
    which is a suffix of [p] ([p[:dotIndex]] in the source). *)
Definition splitext_root (p : string) : string :=
  substring 0 (String.length p - String.length (Py2.splitext_ext p)) p.

(** The backslash character. *)
Definition backslash : ascii := "\"%char.

End Py4.

(** The functions of [os.path] used by [build_extension]. *)
Record OsPath := MkOsPath {
  os_join : string -> list string -> string;
  os_split : string -> string * string;
  os_splitext_root : string -> string;
  os_basename : string -> string
}.

Definition posixpath : OsPath :=
  MkOsPath Py.path_join Py4.posix_split Py4.splitext_root Py.basename.

(** [_get_rt_lib_path] with the [os.path.join] of [os]. *)
Definition rt_lib_path (os : OsPath) (ext_nm : string) : string :=
  let module_parts := Py.split "."%char ext_nm in
  if (1 <? List.length module_parts)%nat then
    match repeat ".." (List.length module_parts - 1) with
    | [] => "."
    | p :: ps => os_join os p ps
    end
  else ".".

(** [os.path.splitext(shared_file)[0][3:]]: the library name given to the
    linker. *)
Definition shared_name_of (os : OsPath) (shared_file : string) : string :=
  let root := os_splitext_root os shared_file in
  substring 3 (String.length root - 3) root.

(** The link settings of a setuptools [Extension] that [build_extension]
    changes; a descriptor made by [mypycify] starts with empty lists. *)
Record LinkFields := MkLink {
  libraries : list string;
  library_dirs : list string;
  runtime_library_dirs : list string
}.

Definition no_link : LinkFields := MkLink [] [] [].

(** What [build_extension] does outside the Python process: the compile and
    link of [build_ext.build_extension], and the [install_name_tool] runs. *)
Inductive BuildEvent :=
| Compile (e : MypycifyExtension) (lf : LinkFields)
| RunTool (cmd : list string).

(** ['/DMYPYC_LIBRARY=\\"{}\\"'.format(path.replace('\\', '\\\\'))] *)
Definition msvc_library_define (path : string) : string :=
  "/DMYPYC_LIBRARY=\" ++ dq ++ Py.replace_char Py4.backslash "\\" path ++ "\" ++ dq.

Section BuildExt.

(** [sys.platform] *)
Variable platform : string.
(** [ntpath], the [os.path] of [win32] *)
Variable ntpath : OsPath.
(** [self.get_ext_fullpath(name)]: where setuptools writes the extension [name] *)
Variable get_ext_fullpath : string -> string.
(** [build_ext.build_extension(ext)] returns (the compile and link succeed) *)
Variable compile_ok : MypycifyExtension -> LinkFields -> bool.
(** [subprocess.check_call(cmd)] returns (exit status 0) *)
Variable tool_ok : list string -> bool.

Definition ospath : OsPath := if String.eqb platform "win32" then ntpath else posixpath.

(** The part of [build_extension] before the compile: the new descriptor and
    link settings, and for a shim [relative_lib_path] and [shared_file]. *)
Definition link_setup (ext : MypycifyExtension) (lf : LinkFields)
  : MypycifyExtension * LinkFields * option (string * string) :=
  match mypyc_shared_target ext with
  | Some target =>
      let relative_lib_path := rt_lib_path ospath (ext_name ext) in
      let '(shared_dir, shared_file) := os_split ospath (get_ext_fullpath (ext_name target)) in
      let shared_name := shared_name_of ospath shared_file in
      let '(ext1, lf1) :=
        if String.eqb platform "win32" then
          let path := os_join ospath relative_lib_path [shared_file] in
          (MkExt (ext_name ext) (ext_sources ext) (ext_include_dirs ext)
                 (ext_extra_compile_args ext ++ [msvc_library_define path])%list
                 (is_mypyc_shared ext) (mypyc_shared_target ext), lf)
        else
          (ext, MkLink (libraries lf ++ [shared_name])%list (library_dirs lf ++ [shared_dir])%list
                       (runtime_library_dirs lf)) in
      let lf2 :=
        if String.eqb platform "linux" then
          MkLink (libraries lf1) (library_dirs lf1)
                 (runtime_library_dirs lf1 ++ [String.append "$ORIGIN/" relative_lib_path])%list
        else lf1 in
      (ext1, lf2, Some (relative_lib_path, shared_file))
  | None => (ext, lf, None)
  end.

(** [subprocess.check_call] on each command in turn; the first failure
    raises [CalledProcessError]. *)
Fixpoint run_tools (cmds : list (list string)) : list BuildEvent * bool :=
  match cmds with
  | [] => ([], true)
  | c :: rest =>
      if tool_ok c then let '(evs, ok) := run_tools rest in (RunTool c :: evs, ok)
      else ([RunTool c], false)
  end.

(** [build_extension]: the events, and whether it returns (rather than
    raise). *)
Definition build_extension (ext : MypycifyExtension) (lf : LinkFields)
  : list BuildEvent * bool :=
  let '(ext1, lf1, link) := link_setup ext lf in
  if negb (compile_ok ext1 lf1) then ([Compile ext1 lf1], false)
  else if String.eqb platform "darwin" then
    let out_path := get_ext_fullpath (ext_name ext) in
    let id_cmd :=
      if is_mypyc_shared ext
      then [["install_name_tool"; "-id"; os_basename ospath out_path; out_path]]
      else [] in
    let change_cmd :=
      match link with
      | Some (relative_lib_path, shared_file) =>
          let new_path := os_join ospath "@loader_path" [relative_lib_path; shared_file] in
          [["install_name_tool"; "-change"; shared_file; new_path; out_path]]
      | None => []
      end in
    let '(evs, ok) := run_tools (id_cmd ++ change_cmd)%list in
    (Compile ext1 lf1 :: evs, ok)
  else ([Compile ext1 lf1], true).

(** [build_ext.build_extensions] with [parallel = 0]: the descriptors in
    order, each with empty link settings, stopping at the first error. *)
Fixpoint build_extensions (exts : list MypycifyExtension) : list BuildEvent * bool :=
  match exts with
  | [] => ([], true)
  | e :: rest =>
      let '(evs, ok) := build_extension e no_link in
      if ok then let '(evs', ok') := build_extensions rest in ((evs ++ evs')%list, ok')
      else (evs, false)
  end.

End BuildExt.

(** The names of the extensions compiled, in order. *)
Definition compiled_names (evs : list BuildEvent) : list string :=
  flat_map (fun ev => match ev with Compile e _ => [ext_name e] | RunTool _ => [] end) evs.

(** A sample layout of setuptools' build directory, for concrete runs of
    [build_extension]. *)
Definition sample_fullpath (name : string) : string :=
  "build/lib/" ++ Py.replace_char "."%char "/" name ++ ".so".

Definition sample_shared : MypycifyExtension :=
  MkExt "libmypyc_x" ["build/CPy.c"] ["lib-rt"] [] true None.

Definition sample_shim : MypycifyExtension :=
  MkExt "a.b" ["build/a___b.c"] [] [] false (Some sample_shared).

(* ------------------------------------------------------------------ *)
(** ** A sample instance of the collaborators, for concrete runs *)

Module Sample.

(** [exported_name] of [mypyc.namegen]:
    [fullname.replace('___', '___3_').replace('.', '___')], here on names
    without [___]. *)
Definition exported_name (fullname : string) : string :=
  Py.replace_char "."%char "___" fullname.

Definition include_dir : string := "lib-rt".

(** [glob.glob]: the literal path if that file exists; [build/*.c] lists
    the [.c] files of [build]. *)
Definition glob (st : State) (pat : string) : list string :=
  if String.eqb pat "build/*.c" then
    filter (fun p => Py2.str_contains "build/" p && String.eqb (Py2.splitext_ext p) ".c")
           (map fst (files st))
  else if existsb (fun pt => String.eqb (fst pt) pat) (files st) then [pat] else [].

(** The module a file path names: [pkg/__init__.py] is [pkg],
    [pkg/mod.py] is [pkg.mod]. *)
Definition module_of_path (p : string) : string :=
  let noext := substring 0 (String.length p - 3) p in
  let dotted := Py.replace_char "/"%char "." noext in
  if String.eqb (Py.basename p) "__init__.py"
  then substring 0 (String.length dotted - 9) dotted else dotted.

(** A stand-in for mypy's [process_options] with fixed options: the files
    after [--] become the build sources; no file is a usage error (exit
    status 2). *)
Fixpoint after_dashes (args : list string) : list string :=
  match args with
  | [] => []
  | a :: r => if String.eqb a "--" then r else after_dashes r
  end.

Definition process_options (opts : Options) (args : list string)
  : PyResult (list BuildSource * Options) :=
  match after_dashes args with
  | [] => PExit 2 "mypy: error: Missing target module, package, files, or command."
  | fs => POk (map (fun f => MkSource (module_of_path f) (Some f)) fs, opts)
  end.

Definition py3_options : Options := MkOptions 3 true false false true [].
Definition py2_options : Options := MkOptions 2 true false false true [].

Definition generate_c (sources : list BuildSource) (_ : Options) (_ : option string)
  : PyResult (list (string * string) * string) :=
  POk ([("__native.c", "/* C */"); ("__native.h", "/* H */")], "ops").

Definition initial (extra_files : list string) (h : list (list string)) : State :=
  MkState [] (("lib-rt/CPy.c", "/* runtime */") :: map (fun f => (f, "")) extra_files) h.

Definition run (opts : Options) (paths : list string) (mopts : option nat) (st : State)
  : PyResult (list MypycifyExtension) * State :=
  mypycify exported_name include_dir "linux" glob (process_options opts) generate_c
           "unix" "gcc" paths mopts "3" false false st.

End Sample.

Module RunTests.
Import Sample.
Example single_foo :
  fst (run py3_options ["foo.py"] None (initial ["foo.py"] []))
  = POk [MkExt "foo" ["build/__native.c"; "build/CPy.c"] ["lib-rt"]
          ["-O3"; "-Werror"; "-Wno-unused-function"; "-Wno-unused-label";
           "-Wno-unreachable-code"; "-Wno-unused-variable"; "-Wno-trigraphs";
           "-Wno-unused-command-line-argument"; "-Wno-unused-but-set-variable"]
          false None].
Proof. vm_compute. reflexivity. Qed.

Example shared_names :
  match fst (run py3_options ["a/__init__.py"; "a/b.py"] None
                 (initial ["a/__init__.py"; "a/b.py"] [])) with
  | POk exts => map ext_name exts
  | _ => []
  end = ["libmypyc_" ++ str_prefix 20 (Sha1.hexdigest (Sha1.encode "a,a.b")); "a.__init__"; "a.b"].
Proof. vm_compute. reflexivity. Qed.

Example rt_paths :
  map get_rt_lib_path ["a.b.c"; "foo"; "a.__init__"] = ["../.."; "."; ".."].
Proof. vm_compute. reflexivity. Qed.

Example py2_rejected :
  fst (run py2_options ["foo.py"] None (initial ["foo.py"] [])) = PExit 1 "Python 2 not supported".
Proof. vm_compute. reflexivity. Qed.
End RunTests.

(* ------------------------------------------------------------------ *)
(** ** Lemmas on the descriptor builders *)

Module BuilderFacts.

Lemma build_shims_spec exported_name platform shared_lib sources bdir cflags st exts st' :
  build_shims exported_name platform shared_lib sources bdir cflags st = (POk exts, st') ->
  Forall2 (fun s e => exists p, src_path s = Some p /\
                                ext_name e = shim_ext_name (module s) p /\
                                is_mypyc_shared e = false /\
                                mypyc_shared_target e = Some shared_lib)
          sources exts.
Proof.
  revert st exts.
  induction sources as [|s rest IH]; intros st exts H; simpl in H.
  - inversion H; constructor.
  - unfold bind, generate_c_extension_shim in H.
    destruct (shim_text exported_name platform (module s) _) as [text|];
      [|discriminate].
    unfold ret, write_file in H.
    destruct (src_path s) as [[|c p]|] eqn:Hp; try discriminate.
    cbv beta iota zeta delta [bind] in H.
    match type of H with
    | context [build_shims ?a ?b ?c ?d ?e ?f ?g] =>
        destruct (build_shims a b c d e f g) as [[r| |] st1] eqn:Hr; try discriminate
    end.
    unfold ret in H; inversion H; subst.
    constructor.
    + exists (String c p); split; [exact Hp|]; repeat split; reflexivity.
    + exact (IH _ _ Hr).
Qed.

End BuilderFacts.

(** ** Lemmas on the path helpers *)

Module PathFacts.

Lemma str_app_assoc (a b c : string) : (a ++ b) ++ c = a ++ (b ++ c).
Proof. induction a as [|x a IH]; simpl; [reflexivity | now rewrite IH]. Qed.

Lemma split_length c s :
  List.length (Py.split c s) = S (Py.count_char c s).
Proof.
  induction s as [|d s IH]; simpl; [reflexivity|].
  destruct (Ascii.eqb c d); simpl.
  - now rewrite IH.
  - destruct (Py.split c s) as [|p ps]; simpl in *; [discriminate | exact IH].
Qed.

(** ['/..' * k] *)
Fixpoint dotdots (k : nat) : string :=
  match k with
  | O => EmptyString
  | S k' => "/.." ++ dotdots k'
  end.

Lemma ends_with_slash_app_dd s :
  Py.ends_with_slash (s ++ "/..") = false.
Proof.
  induction s as [|x s IH]; [reflexivity|].
  change (String x s ++ "/..") with (String x (s ++ "/..")).
  destruct (s ++ "/..") eqn:E; [destruct s; discriminate|].
  exact IH.
Qed.

Lemma join_repeat_dd k :
  Py.join "/" (repeat ".." (S k)) = ".." ++ dotdots k.
Proof.
  induction k as [|k IH]; [reflexivity|].
  transitivity (".." ++ "/" ++ Py.join "/" (repeat ".." (S k))); [reflexivity|].
  rewrite IH. reflexivity.
Qed.

Lemma path_join_repeat_dd acc k :
  acc <> EmptyString -> Py.ends_with_slash acc = false ->
  Py.path_join acc (repeat ".." k) = acc ++ dotdots k.
Proof.
  revert acc; induction k as [|k IH]; intros acc Hne Hend.
  - simpl. induction acc as [|x acc IHa]; simpl; [reflexivity|].
    destruct acc; [reflexivity|]. f_equal. apply IHa; [discriminate|exact Hend].
  - unfold Py.path_join in *. simpl.
    assert (Hb : (acc =? "")%string = false) by (apply String.eqb_neq; exact Hne).
    rewrite Hb, Hend. simpl.
    rewrite IH.
    + change (String "/" (String "." (String "." EmptyString))) with "/..".
      rewrite str_app_assoc. reflexivity.
    + destruct acc; [contradiction | discriminate].
    + apply ends_with_slash_app_dd.
Qed.

End PathFacts.

(** ** Frame lemmas: what each step leaves unchanged *)

Module Frame.

Definition preserves {X A} (proj : State -> X) (m : M A) : Prop :=
  forall st, proj (snd (m st)) = proj st.

Create HintDb frame.

Lemma preserves_ret {X A} (proj : State -> X) (a : A) : preserves proj (ret a).
Proof. intro; reflexivity. Qed.

Lemma preserves_lift {X A} (proj : State -> X) (r : PyResult A) : preserves proj (lift r).
Proof. intro; reflexivity. Qed.

Lemma preserves_raise {X A} (proj : State -> X) e : preserves proj (@raise A e).
Proof. intro; reflexivity. Qed.

Lemma bind_snd_proj {X A B} (proj : State -> X) (m : M A) (f : A -> M B) st :
  (forall a, preserves proj (f a)) ->
  proj (snd (bind m f st)) = proj (snd (m st)).
Proof.
  intros Hf; unfold bind.
  destruct (m st) as [[a| |] st']; simpl; [apply Hf|reflexivity|reflexivity].
Qed.

Lemma preserves_bind {X A B} (proj : State -> X) (m : M A) (f : A -> M B) :
  preserves proj m -> (forall a, preserves proj (f a)) -> preserves proj (bind m f).
Proof. intros Hm Hf st. rewrite bind_snd_proj by exact Hf. apply Hm. Qed.

Lemma write_file_dirs p t : preserves dirs (write_file p t).
Proof. intro; reflexivity. Qed.
Lemma write_file_heap p t : preserves heap (write_file p t).
Proof. intro; reflexivity. Qed.

Lemma copyfile_dirs a b : preserves dirs (copyfile a b).
Proof. intro st; unfold copyfile; destruct (read_file st a); reflexivity. Qed.
Lemma copyfile_heap a b : preserves heap (copyfile a b).
Proof. intro st; unfold copyfile; destruct (read_file st a); reflexivity. Qed.

Lemma mkdir_heap d : preserves heap (mkdir_exist_ok d).
Proof. intro st; unfold mkdir_exist_ok; simpl; destruct (path_exists _ _); reflexivity. Qed.

#[export] Hint Resolve preserves_ret preserves_lift preserves_raise
  write_file_dirs write_file_heap copyfile_dirs copyfile_heap mkdir_heap : frame.

(** Splits a monadic program into its steps. *)
Ltac frame :=
  repeat match goal with
  | |- preserves _ (bind _ _) => apply preserves_bind; [|intro]
  | |- preserves _ (match ?x with _ => _ end) => destruct x
  | |- preserves _ (if ?b then _ else _) => destruct b
  | |- preserves _ (fun _ => _) => intro; reflexivity
  | |- preserves _ _ => solve [eauto with frame]
  end.

Section Steps.
Variable exported_name : string -> string.
Variable include_dir platform : string.
Variable glob : State -> string -> list string.
Variable process_options : list string -> PyResult (list BuildSource * Options).
Variable generate_c : list BuildSource -> Options -> option string
                      -> PyResult (list (string * string) * string).
Variable compiler_type compiler0 : string.

Lemma generate_shim_frame {X} (proj : State -> X) full m d :
  (forall p t, preserves proj (write_file p t)) ->
  preserves proj (generate_c_extension_shim exported_name platform full m d).
Proof.
  intros Hw. unfold generate_c_extension_shim.
  destruct (shim_text _ _ _ _); frame; auto.
Qed.

Lemma build_shims_frame {X} (proj : State -> X) sh srcs d cf :
  (forall p t, preserves proj (write_file p t)) ->
  preserves proj (build_shims exported_name platform sh srcs d cf).
Proof.
  intros Hw. induction srcs as [|s rest IH]; simpl; frame.
  all: try apply generate_shim_frame; auto.
Qed.

Lemma build_from_config_frame {X} (proj : State -> X) sources options o mf sk :
  (forall p t, preserves proj (write_file p t)) ->
  (forall a b, preserves proj (copyfile a b)) ->
  preserves proj (build_from_config exported_name include_dir platform glob generate_c
                    compiler_type compiler0 sources options o mf sk).
Proof.
  intros Hw Hc. unfold build_from_config, build_using_shared_lib.
  frame; auto.
  - induction l as [|[cf ct] rest IH]; simpl; frame; auto.
  - apply build_shims_frame; auto.
Qed.

End Steps.

End Frame.

(** ** The argument list of [get_mypy_config] *)

Module ConfigFacts.
Local Open Scope list_scope.

(** The list handed to [process_options]: the caller's list (or an empty
    one), then ['--'], then the paths. *)
Definition mypy_args (h : list (list string)) (paths : list string) (mopts : option nat)
  : list string :=
  ((match mopts with Some l => nth l h [] | None => [] end ++ ["--"]) ++ paths)%list.

Lemma list_set_length {A} (xs : list A) i v : List.length (Py2.list_set xs i v) = List.length xs.
Proof. revert i; induction xs; intros [|i]; simpl; auto. Qed.

Lemma nth_list_set_eq {A} (xs : list A) i v d :
  (i < List.length xs)%nat -> nth i (Py2.list_set xs i v) d = v.
Proof.
  revert i; induction xs as [|x xs IH]; intros [|i] H; simpl in *; try lia; auto.
  apply IH; lia.
Qed.

Lemma nth_list_set_neq {A} (xs : list A) i j v d :
  i <> j -> nth j (Py2.list_set xs i v) d = nth j xs d.
Proof.
  revert i j; induction xs as [|x xs IH]; intros [|i] [|j] H; simpl; auto; try lia.
Qed.

Lemma nth_nonempty_lt {A} l (h : list (list A)) x xs :
  nth l h [] = x :: xs -> (l < List.length h)%nat.
Proof.
  intros E. destruct (Nat.lt_ge_cases l (List.length h)) as [Hl|Hl]; auto.
  rewrite nth_overflow in E by exact Hl. discriminate.
Qed.

Section Run.
Variable process_options : list string -> PyResult (list BuildSource * Options).

(** One run of [get_mypy_config]: its result is [check_config] on
    [process_options (mypy_args ...)], it touches only the heap, and on the
    heap it changes only the caller's list, and only when that list is
    non-empty. *)
Lemma get_mypy_config_run paths mopts st :
  exists h',
    get_mypy_config process_options paths mopts st =
      (check_config (process_options (mypy_args (heap st) paths mopts)),
       MkState (dirs st) (files st) h') /\
    forall l', (l' < List.length (heap st))%nat ->
      nth l' h' [] =
        match mopts with
        | Some l => if Nat.eqb l l' then
                      match nth l' (heap st) [] with
                      | [] => []
                      | xs => ((xs ++ ["--"]) ++ paths)%list
                      end
                    else nth l' (heap st) []
        | None => nth l' (heap st) []
        end.
Proof.
  destruct st as [ds fs h].
  unfold get_mypy_config, options_list, extend, read_list, bind, lift, mypy_args; simpl.
  assert (Hfresh : forall (v1 v2 : list string) l', (l' < List.length h)%nat ->
            nth l' (Py2.list_set (Py2.list_set (h ++ [[]]) (List.length h) v1)
                                 (List.length h) v2) [] = nth l' h []).
  { intros v1 v2 l' Hl. rewrite !nth_list_set_neq by lia. apply app_nth1; exact Hl. }
  assert (Hlen : (List.length h < List.length (h ++ [[]]))%nat)
    by (rewrite length_app; simpl; lia).
  assert (Hnth : nth (List.length h) (h ++ [[]]) [] = []).
  { rewrite app_nth2 by lia. rewrite Nat.sub_diag. reflexivity. }
  destruct mopts as [l|].
  - destruct (nth l h []) as [|x xs] eqn:E.
    + eexists; split; cbn [heap dirs files].
      * rewrite nth_list_set_eq by (rewrite list_set_length; exact Hlen).
        rewrite nth_list_set_eq by exact Hlen. rewrite Hnth. reflexivity.
      * intros l' Hl. rewrite Hfresh by exact Hl.
        destruct (Nat.eqb_spec l l'); subst; [rewrite E|]; reflexivity.
    + assert (Hl : (l < List.length h)%nat) by exact (nth_nonempty_lt _ _ _ _ E).
      eexists; split; cbn [heap dirs files].
      * rewrite nth_list_set_eq by (rewrite list_set_length; exact Hl).
        rewrite nth_list_set_eq by exact Hl. rewrite E. reflexivity.
      * intros l' Hl'. destruct (Nat.eqb_spec l l').
        -- subst. rewrite nth_list_set_eq by (rewrite list_set_length; exact Hl).
           rewrite E. reflexivity.
        -- rewrite !nth_list_set_neq by exact n. reflexivity.
  - eexists; split; cbn [heap dirs files].
    + rewrite nth_list_set_eq by (rewrite list_set_length; exact Hlen).
      rewrite nth_list_set_eq by exact Hlen. rewrite Hnth. reflexivity.
    + intros l' Hl. apply Hfresh; exact Hl.
Qed.

End Run.

End ConfigFacts.

(** ** Lemmas on the hex digest *)

Module HexFacts.

Definition is_lower_hex (c : ascii) : bool :=
  let n := nat_of_ascii c in
  (Nat.leb 48 n && Nat.leb n 57) || (Nat.leb 97 n && Nat.leb n 102).

Lemma length_app (a b : string) : String.length (a ++ b) = String.length a + String.length b.
Proof. induction a as [|x a IH]; simpl; auto. Qed.

Lemma chars_app (a b : string) :
  list_ascii_of_string (a ++ b) = (list_ascii_of_string a ++ list_ascii_of_string b)%list.
Proof. induction a as [|x a IH]; simpl; [reflexivity|now rewrite IH]. Qed.

Lemma hex_word_length n x : String.length (Sha1.hex_word n x) = n.
Proof.
  revert x; induction n as [|n IH]; intros x; simpl; [reflexivity|].
  rewrite length_app, IH. simpl. lia.
Qed.

Lemma hex_char_lower d : (0 <= d < 16)%Z -> is_lower_hex (Sha1.hex_char d) = true.
Proof.
  intros Hd.
  assert (d = 0 \/ d = 1 \/ d = 2 \/ d = 3 \/ d = 4 \/ d = 5 \/ d = 6 \/ d = 7 \/ d = 8 \/
          d = 9 \/ d = 10 \/ d = 11 \/ d = 12 \/ d = 13 \/ d = 14 \/ d = 15)%Z
    as Hc by lia.
  repeat destruct Hc as [-> | Hc]; try reflexivity; subst; reflexivity.
Qed.

Lemma hex_word_lower n x :
  forallb is_lower_hex (list_ascii_of_string (Sha1.hex_word n x)) = true.
Proof.
  revert x; induction n as [|n IH]; intros x; simpl; [reflexivity|].
  rewrite chars_app, forallb_app, IH. simpl.
  rewrite hex_char_lower; [reflexivity|].
  change 15%Z with (Z.ones 4). rewrite Z.land_ones by lia.
  apply Z.mod_pos_bound. reflexivity.
Qed.

Lemma hex_words_shape (ws : list Z) :
  String.length (fold_right (fun w acc => Sha1.hex_word 8 w ++ acc) EmptyString ws)
    = 8 * List.length ws /\
  forallb is_lower_hex
    (list_ascii_of_string (fold_right (fun w acc => Sha1.hex_word 8 w ++ acc) EmptyString ws))
    = true.
Proof.
  induction ws as [|w ws [IHl IHf]]; cbn [fold_right List.length]; [split; reflexivity|].
  rewrite length_app, hex_word_length, IHl, chars_app, forallb_app, hex_word_lower, IHf.
  split; [lia|reflexivity].
Qed.

Lemma digest_words_length msg : List.length (Sha1.digest_words msg) = 5.
Proof. reflexivity. Qed.

Lemma hexdigest_shape msg :
  String.length (Sha1.hexdigest msg) = 40 /\
  forallb is_lower_hex (list_ascii_of_string (Sha1.hexdigest msg)) = true.
Proof.
  unfold Sha1.hexdigest.
  destruct (hex_words_shape (Sha1.digest_words msg)) as [Hl Hf].
  rewrite digest_words_length in Hl. split; assumption.
Qed.

Lemma prefix_length n s : String.length (str_prefix n s) = Nat.min n (String.length s).
Proof.
  unfold str_prefix. revert s; induction n as [|n IH]; intros [|c s]; simpl; auto.
Qed.

Lemma prefix_forallb P n s :
  forallb P (list_ascii_of_string s) = true ->
  forallb P (list_ascii_of_string (str_prefix n s)) = true.
Proof.
  unfold str_prefix. revert s; induction n as [|n IH]; intros [|c s] H; simpl in *; auto.
  apply andb_true_iff in H as [H1 H2]. rewrite H1, IH; auto.
Qed.

End HexFacts.

(** ** Lemmas on shim generation *)

Module ShimFacts.

Lemma shim_text_some exported_name platform full module_name :
  exists text, shim_text exported_name platform full module_name = Some text.
Proof.
  unfold shim_text, shim_template.
  destruct (String.eqb platform "win32"); eexists; reflexivity.
Qed.

Lemma read_after_write p t st : read_file (snd (write_file p t st)) p = Some t.
Proof. unfold read_file, write_file; simpl. rewrite String.eqb_refl. reflexivity. Qed.

End ShimFacts.

(** ** Lemmas on a whole [mypycify] run *)

Module RunFacts.

Lemma bind_not_ok {A B} (m : M A) (f : A -> M B) st x :
  (forall a st', fst (f a st') <> POk x) -> fst (bind m f st) <> POk x.
Proof.
  intros Hf; unfold bind.
  destruct (m st) as [[a| |] st']; simpl; [apply Hf|discriminate|discriminate].
Qed.

Lemma read_file_none_not_listed st d :
  read_file st d = None -> existsb (fun pt => String.eqb (fst pt) d) (files st) = false.
Proof.
  unfold read_file. destruct (existsb _ _) eqn:E; [|reflexivity].
  apply existsb_exists in E as [x [Hx Hd]].
  destruct (find (fun pt => String.eqb (fst pt) d) (files st)) eqn:F; [discriminate|].
  intros _. rewrite (find_none _ _ F x Hx) in Hd. discriminate.
Qed.

Lemma read_file_some_listed st d :
  read_file st d <> None -> existsb (fun pt => String.eqb (fst pt) d) (files st) = true.
Proof.
  unfold read_file. intros H.
  destruct (find (fun pt => String.eqb (fst pt) d) (files st)) as [x|] eqn:F; [|contradiction].
  apply existsb_exists. exists x. split.
  - exact (proj1 (find_some _ _ F)).
  - exact (proj2 (find_some _ _ F)).
Qed.

Lemma mkdir_in d st : read_file st d = None -> In d (dirs (snd (mkdir_exist_ok d st))).
Proof.
  intros Hf. unfold mkdir_exist_ok, path_exists; simpl.
  rewrite (read_file_none_not_listed st d Hf), orb_false_r.
  destruct (existsb (String.eqb d) (dirs st)) eqn:E.
  - apply existsb_exists in E as [x [Hx Hd]].
    apply String.eqb_eq in Hd; subst; exact Hx.
  - left; reflexivity.
Qed.

Lemma mkdir_blocked d st :
  read_file st d <> None -> snd (mkdir_exist_ok d st) = st.
Proof.
  intros Hf. unfold mkdir_exist_ok, path_exists; simpl.
  rewrite (read_file_some_listed st d Hf), orb_true_r. reflexivity.
Qed.

Section R.
Variable exported_name : string -> string.
Variable include_dir platform : string.
Variable glob : State -> string -> list string.
Variable process_options : list string -> PyResult (list BuildSource * Options).
Variable generate_c : list BuildSource -> Options -> option string
                      -> PyResult (list (string * string) * string).
Variable compiler_type compiler0 : string.

(** [mypycify] is [get_mypy_config] then [build_from_config], run after
    the build directory exists. *)
Lemma mypycify_unfold paths mopts ol mf sk st :
  mypycify exported_name include_dir platform glob process_options generate_c
           compiler_type compiler0 paths mopts ol mf sk st =
  bind (get_mypy_config process_options (flat_map (glob st) paths) mopts)
       (fun cfg => let '(sources, options) := cfg in
                   build_from_config exported_name include_dir platform glob generate_c
                     compiler_type compiler0 sources options ol mf sk)
       (snd (mkdir_exist_ok build_dir st)).
Proof. reflexivity. Qed.

(** With no sources, the steps after [get_mypy_config] never succeed. *)
Lemma build_from_config_empty options ol mf sk st exts :
  fst (build_from_config exported_name include_dir platform glob generate_c
         compiler_type compiler0 [] options ol mf sk st) <> POk exts.
Proof.
  unfold build_from_config. cbv zeta.
  apply bind_not_ok; intros cf st1. cbv beta.
  apply bind_not_ok; intros u st2. cbv beta.
  simpl. discriminate.
Qed.

End R.

End RunFacts.

(* ================================================================== *)
(** * The claims *)

(** Spec-side reading of the link path: [depth] parent-directory steps
    joined by ['/'], or the current directory for depth 0. *)
Definition parent_steps (depth : nat) : string :=
  match depth with
  | O => "."
  | S k => Py.join "/" (repeat ".." (S k))
  end.

(** Sample sources used by the witnesses. *)
Definition sample_sources : list BuildSource :=
  [MkSource "a" (Some "a/__init__.py"); MkSource "a.b" (Some "a/b.py")].

Module Claims.

(** C1: for a non-empty set of sources, the shared-library strategy is
    chosen exactly when there is more than one source or some module name
    contains a dot; otherwise [build_single_module] returns one descriptor
    with no back-reference. *)
Theorem strategy_selection (include_dir : string) (sources : list BuildSource)
    (cfiles cflags : list string) (Hne : sources <> []) :
  (use_shared_lib sources = true <->
     (1 < List.length sources)%nat \/
     Exists (fun x => Py.contains_char "."%char (module x) = true) sources) /\
  (use_shared_lib sources = false ->
     exists e, build_single_module include_dir sources cfiles cflags = POk [e] /\
               mypyc_shared_target e = None).
Proof.
  split.
  - unfold use_shared_lib. rewrite orb_true_iff, Nat.ltb_lt, existsb_exists, Exists_exists.
    reflexivity.
  - intros _. destruct sources as [|s rest]; [contradiction|].
    eexists; split; reflexivity.
Qed.

Lemma strategy_selection_witness :
  [MkSource "foo" (Some "foo.py")] <> [] /\
  ((use_shared_lib [MkSource "foo" (Some "foo.py")] = true <->
     (1 < List.length [MkSource "foo" (Some "foo.py")])%nat \/
     Exists (fun x => Py.contains_char "."%char (module x) = true)
            [MkSource "foo" (Some "foo.py")]) /\
   (use_shared_lib [MkSource "foo" (Some "foo.py")] = false ->
     exists e, build_single_module "lib-rt" [MkSource "foo" (Some "foo.py")]
                 ["build/CPy.c"] [] = POk [e] /\ mypyc_shared_target e = None)).
Proof.
  split; [discriminate|].
  apply (strategy_selection "lib-rt" [MkSource "foo" (Some "foo.py")] ["build/CPy.c"] []).
  discriminate.
Defined.

(** C2: a shared build over N sources returns N+1 descriptors: first the
    one shared library (marker set, no back-reference), then N shims, each
    without the marker and with a back-reference to that first descriptor. *)
Theorem shared_build_descriptors exported_name include_dir platform sources lib_name
    cfiles build_dir cflags st exts st'
    (H : build_using_shared_lib exported_name include_dir platform sources lib_name
           cfiles build_dir cflags st = (POk exts, st')) :
  List.length exts = S (List.length sources) /\
  exists shared, hd_error exts = Some shared /\ is_mypyc_shared shared = true /\
    mypyc_shared_target shared = None /\
    Forall (fun e => is_mypyc_shared e = false /\ mypyc_shared_target e = Some shared)
           (tl exts).
Proof.
  unfold build_using_shared_lib, bind in H.
  match type of H with
  | context [build_shims ?a ?b ?c ?d ?e ?f ?g] =>
      destruct (build_shims a b c d e f g) as [[r| |] st1] eqn:Hr; try discriminate
  end.
  unfold ret in H; inversion H; subst; clear H.
  apply BuilderFacts.build_shims_spec in Hr.
  split.
  - simpl. f_equal. symmetry. exact (Forall2_length Hr).
  - eexists; split; [reflexivity|]. split; [reflexivity|]. split; [reflexivity|].
    simpl. induction Hr as [|s e srcs es [p (_ & _ & Hs & Ht)] _ IH]; constructor; auto.
Qed.

Lemma shared_build_descriptors_witness :
  exists exts st',
    build_using_shared_lib Sample.exported_name "lib-rt" "linux" sample_sources
      "mypyc_x" ["build/CPy.c"] "build" [] (Sample.initial [] []) = (POk exts, st') /\
    (List.length exts = S (List.length sample_sources) /\
     exists shared, hd_error exts = Some shared /\ is_mypyc_shared shared = true /\
       mypyc_shared_target shared = None /\
       Forall (fun e => is_mypyc_shared e = false /\ mypyc_shared_target e = Some shared)
              (tl exts)).
Proof.
  do 2 eexists. split; [reflexivity|].
  eapply (shared_build_descriptors Sample.exported_name "lib-rt" "linux" sample_sources
            "mypyc_x" ["build/CPy.c"] "build" [] (Sample.initial [] [])).
  reflexivity.
Defined.

(** C4: the relative path from a shim to the shared library has as many
    parent-directory steps as the extension name has dots, and is the
    current directory for a name without dots. *)
Theorem rt_lib_path_depth (ext_nm : string) :
  get_rt_lib_path ext_nm = parent_steps (Py.count_char "."%char ext_nm).
Proof.
  unfold get_rt_lib_path, parent_steps.
  rewrite PathFacts.split_length.
  destruct (Py.count_char "."%char ext_nm) as [|k]; [reflexivity|].
  replace (1 <? S (S k))%nat with true by reflexivity.
  replace (S (S k) - 1)%nat with (S k) by lia.
  change (Py.path_join ".." (repeat ".." k) = Py.join "/" (repeat ".." (S k))).
  rewrite PathFacts.path_join_repeat_dd by (discriminate || reflexivity).
  rewrite PathFacts.join_repeat_dd. reflexivity.
Qed.



(** C3 as stated fails: the same modules in another order, ["a", "b"] and
    ["b", "a"], have equal sorted contents but different names. *)
Lemma shared_lib_name_sorted_counterexample :
  ~ (forall l1 l2 : list string,
        shared_lib_name l1 = shared_lib_name l2 <-> Permutation l1 l2).
Proof.
  intros H.
  assert (E : shared_lib_name ["a"; "b"] = shared_lib_name ["b"; "a"])
    by (apply H; apply perm_swap).
  vm_compute in E. discriminate E.
Qed.

(** C3 (amended): the name is computed from the module list in the order
    given, not sorted. [["pkg.mod1"; "pkg.mod2"]] and [["pkg.mod1"]] get
    different names, and so do [["a"; "b"]] and [["b"; "a"]]. *)
Theorem shared_lib_name_given_order :
  shared_lib_name ["pkg.mod1"; "pkg.mod2"] = "mypyc_bacd5eb729c309658bfb" /\
  shared_lib_name ["pkg.mod1"] = "mypyc_3b0716c5de46722f8df1" /\
  shared_lib_name ["pkg.mod1"; "pkg.mod2"] <> shared_lib_name ["pkg.mod1"] /\
  shared_lib_name ["a"; "b"] = "mypyc_5d8b1241b0484dd20c2c" /\
  shared_lib_name ["b"; "a"] = "mypyc_fc2e7ee73c4f69821b90" /\
  shared_lib_name ["a"; "b"] <> shared_lib_name ["b"; "a"].
Proof.
  repeat split; vm_compute; try reflexivity; discriminate.
Qed.

(** C9: the name is [mypyc_] followed by 20 lowercase hex characters, it
    depends on the list only through the comma-joined string, and
    [["a,b"]] and [["a"; "b"]] receive the same name. *)
Theorem shared_lib_name_form :
  (forall modules, exists hex,
      shared_lib_name modules = "mypyc_" ++ hex /\ String.length hex = 20 /\
      forallb HexFacts.is_lower_hex (list_ascii_of_string hex) = true) /\
  (forall l1 l2, Py.join "," l1 = Py.join "," l2 -> shared_lib_name l1 = shared_lib_name l2) /\
  shared_lib_name ["a,b"] = shared_lib_name ["a"; "b"].
Proof.
  split; [|split].
  - intros modules. eexists; split; [reflexivity|].
    destruct (HexFacts.hexdigest_shape (Sha1.encode (Py.join "," modules))) as [Hl Hf].
    split.
    + rewrite HexFacts.prefix_length, Hl. reflexivity.
    + apply HexFacts.prefix_forallb; exact Hf.
  - intros l1 l2 E. unfold shared_lib_name. rewrite E. reflexivity.
  - reflexivity.
Qed.

(** C7: the text of a shim is fixed by the platform, the short module name
    and the exported name of the full module name; generating it writes
    that text at a path depending only on the directory and the full
    name, whatever the state, so a second generation leaves the same
    bytes. *)
Theorem shim_generation_pure exported_name platform full_module_name module_name :
  exists text,
    shim_text exported_name platform full_module_name module_name = Some text /\
    forall dirname st,
      let cpath := Py.path_join dirname [Py.replace_char "."%char "___" full_module_name ++ ".c"] in
      generate_c_extension_shim exported_name platform full_module_name module_name dirname st
        = (POk cpath, snd (write_file cpath text st)) /\
      read_file (snd (generate_c_extension_shim exported_name platform full_module_name
                        module_name dirname
                        (snd (generate_c_extension_shim exported_name platform
                                full_module_name module_name dirname st)))) cpath
        = Some text.
Proof.
  destruct (ShimFacts.shim_text_some exported_name platform full_module_name module_name)
    as [text E].
  exists text; split; [exact E|].
  intros dirname st cpath.
  assert (G : forall st', generate_c_extension_shim exported_name platform full_module_name
                            module_name dirname st' = (POk cpath, snd (write_file cpath text st'))).
  { intros st'. unfold generate_c_extension_shim. rewrite E. reflexivity. }
  split; [apply G|].
  rewrite !G. cbn [snd]. apply ShimFacts.read_after_write.
Qed.

Section WholeRun.
Variable exported_name : string -> string.
Variable include_dir platform : string.
Variable glob : State -> string -> list string.
Variable process_options : list string -> PyResult (list BuildSource * Options).
Variable generate_c : list BuildSource -> Options -> option string
                      -> PyResult (list (string * string) * string).
Variable compiler_type compiler0 : string.

Local Abbreviation RUN paths mopts ol mf sk st :=
  (mypycify exported_name include_dir platform glob process_options generate_c
            compiler_type compiler0 paths mopts ol mf sk st).

Local Abbreviation ARGS paths mopts st :=
  (ConfigFacts.mypy_args (heap st) (flat_map (glob st) paths) mopts).

(** C6 (amended): whatever the module set, [mypycify] tries to create the
    [build] directory before the sources are known: unless a regular file
    named [build] is in the way, the directory exists afterwards, and when
    such a file is in the way no directory is created; descriptors are
    returned only for a non-empty list of sources; a failure of mypy's
    option processing is the failure of the build. *)
Theorem empty_module_set_outcome paths mopts ol mf sk st :
  (read_file st build_dir = None ->
     In build_dir (dirs (snd (RUN paths mopts ol mf sk st)))) /\
  (read_file st build_dir <> None ->
     dirs (snd (RUN paths mopts ol mf sk st)) = dirs st) /\
  (forall exts, fst (RUN paths mopts ol mf sk st) = POk exts ->
     exists sources options,
       process_options (ARGS paths mopts st) = POk (sources, options) /\ sources <> []) /\
  (forall c m, process_options (ARGS paths mopts st) = PExit c m ->
     fst (RUN paths mopts ol mf sk st) = PExit c m) /\
  (forall e, process_options (ARGS paths mopts st) = PRaise e ->
     fst (RUN paths mopts ol mf sk st) = PRaise e).
Proof.
  rewrite !RunFacts.mypycify_unfold.
  pose proof (Frame.mkdir_heap build_dir st) as Hh.
  destruct (ConfigFacts.get_mypy_config_run process_options (flat_map (glob st) paths) mopts
              (snd (mkdir_exist_ok build_dir st))) as [h' [E _]].
  rewrite Hh in E.
  split; [|split; [|split; [|split]]].
  - intros Hf. rewrite (Frame.bind_snd_proj dirs).
    + rewrite E. exact (RunFacts.mkdir_in build_dir st Hf).
    + intros [sources options].
      apply Frame.build_from_config_frame; [apply Frame.write_file_dirs|apply Frame.copyfile_dirs].
  - intros Hf. rewrite (Frame.bind_snd_proj dirs).
    + rewrite E. cbn [dirs]. rewrite (RunFacts.mkdir_blocked build_dir st Hf). reflexivity.
    + intros [sources options].
      apply Frame.build_from_config_frame; [apply Frame.write_file_dirs|apply Frame.copyfile_dirs].
  - intros exts Hr. unfold bind in Hr. rewrite E in Hr.
    destruct (process_options _) as [[sources options]| |]; try discriminate.
    exists sources, options; split; [reflexivity|].
    intros ->.
    unfold check_config in Hr.
    destruct (Nat.eqb _ 2); [discriminate|].
    destruct (negb _); [discriminate|].
    exact (RunFacts.build_from_config_empty _ _ _ _ _ _ _ _ _ _ _ _ _ Hr).
  - intros c m Hpo. unfold bind. rewrite E, Hpo. reflexivity.
  - intros e Hpo. unfold bind. rewrite E, Hpo. reflexivity.
Qed.

(** C8: when the options select Python 2 or turn strict optional checking
    off, [mypycify] ends in [SystemExit] with exit status 1 and one of the
    two messages, and returns no descriptors. *)
Theorem unsupported_configuration_exits paths mopts ol mf sk st sources options
    (Hpo : process_options (ARGS paths mopts st) = POk (sources, options))
    (Hbad : python_version_major options = 2 \/ strict_optional options = false) :
  exists msg, fst (RUN paths mopts ol mf sk st) = PExit 1 msg /\
    (msg = "Python 2 not supported" \/
     msg = "Disabling strict optional checking not supported").
Proof.
  rewrite RunFacts.mypycify_unfold.
  pose proof (Frame.mkdir_heap build_dir st) as Hh.
  destruct (ConfigFacts.get_mypy_config_run process_options (flat_map (glob st) paths) mopts
              (snd (mkdir_exist_ok build_dir st))) as [h' [E _]].
  rewrite Hh in E.
  unfold bind. rewrite E, Hpo. unfold check_config.
  destruct (Nat.eqb_spec (python_version_major options) 2) as [H2|H2].
  - eexists; split; [reflexivity|left; reflexivity].
  - destruct Hbad as [Hb|Hs]; [contradiction|].
    rewrite Hs. eexists; split; [reflexivity|right; reflexivity].
Qed.

(** C10 (amended): after [mypycify], the caller's [mypy_options] list at
    [l] holds its old items, then ['--'], then the expanded paths, when it
    was non-empty; an empty list is left empty. *)
Theorem mypy_options_list_mutation paths l ol mf sk st
    (Hl : (l < List.length (heap st))%nat) :
  nth l (heap (snd (RUN paths (Some l) ol mf sk st))) [] =
  match nth l (heap st) [] with
  | [] => []
  | xs => ((xs ++ ["--"]) ++ flat_map (glob st) paths)%list
  end.
Proof.
  rewrite RunFacts.mypycify_unfold.
  pose proof (Frame.mkdir_heap build_dir st) as Hh.
  destruct (ConfigFacts.get_mypy_config_run process_options (flat_map (glob st) paths) (Some l)
              (snd (mkdir_exist_ok build_dir st))) as [h' [E Hn]].
  rewrite (Frame.bind_snd_proj heap).
  - rewrite E. cbn [snd heap]. rewrite Hh in Hn. rewrite (Hn l Hl), Nat.eqb_refl. reflexivity.
  - intros [sources options].
    apply Frame.build_from_config_frame; [apply Frame.write_file_heap|apply Frame.copyfile_heap].
Qed.

End WholeRun.

(** C6 as stated fails: with no input files, mypy's option processing
    stops the build (status 2), and the [build] directory, absent before,
    exists afterwards. *)
Lemma empty_module_set_counterexample :
  ~ In "build" (dirs (Sample.initial [] [])) /\
  In "build" (dirs (snd (Sample.run Sample.py3_options [] None (Sample.initial [] [])))) /\
  fst (Sample.run Sample.py3_options [] None (Sample.initial [] []))
    = PExit 2 "mypy: error: Missing target module, package, files, or command.".
Proof.
  split; [simpl; tauto|].
  split; vm_compute; [left|]; reflexivity.
Qed.

Lemma unsupported_configuration_exits_witness :
  Sample.process_options Sample.py2_options
    (ConfigFacts.mypy_args (heap (Sample.initial ["foo.py"] []))
       (flat_map (Sample.glob (Sample.initial ["foo.py"] [])) ["foo.py"]) None)
    = POk ([MkSource "foo" (Some "foo.py")], Sample.py2_options) /\
  (python_version_major Sample.py2_options = 2 \/ strict_optional Sample.py2_options = false) /\
  exists msg, fst (Sample.run Sample.py2_options ["foo.py"] None (Sample.initial ["foo.py"] []))
                = PExit 1 msg /\
    (msg = "Python 2 not supported" \/
     msg = "Disabling strict optional checking not supported").
Proof.
  assert (Hpo : Sample.process_options Sample.py2_options
    (ConfigFacts.mypy_args (heap (Sample.initial ["foo.py"] []))
       (flat_map (Sample.glob (Sample.initial ["foo.py"] [])) ["foo.py"]) None)
    = POk ([MkSource "foo" (Some "foo.py")], Sample.py2_options)) by reflexivity.
  assert (Hbad : python_version_major Sample.py2_options = 2 \/
                 strict_optional Sample.py2_options = false) by (left; reflexivity).
  split; [exact Hpo|]. split; [exact Hbad|].
  exact (unsupported_configuration_exits Sample.exported_name Sample.include_dir "linux"
           Sample.glob (Sample.process_options Sample.py2_options) Sample.generate_c
           "unix" "gcc" ["foo.py"] None "3" false false (Sample.initial ["foo.py"] [])
           _ _ Hpo Hbad).
Defined.

(** C10 as stated fails: an empty caller list is falsy, so
    [mypy_options or []] uses a fresh list and the caller's list stays
    empty. *)
Lemma mypy_options_empty_list_counterexample :
  nth 0 (heap (Sample.initial ["foo.py"] [[]])) [] = [] /\
  nth 0 (heap (snd (Sample.run Sample.py3_options ["foo.py"] (Some 0)
                      (Sample.initial ["foo.py"] [[]])))) [] = [].
Proof. split; vm_compute; reflexivity. Qed.

Lemma mypy_options_list_mutation_witness :
  (0 < List.length (heap (Sample.initial ["foo.py"] [["--strict"]])))%nat /\
  nth 0 (heap (snd (Sample.run Sample.py3_options ["foo.py"] (Some 0)
                      (Sample.initial ["foo.py"] [["--strict"]])))) [] =
  match nth 0 (heap (Sample.initial ["foo.py"] [["--strict"]])) [] with
  | [] => []
  | xs => ((xs ++ ["--"]) ++
           flat_map (Sample.glob (Sample.initial ["foo.py"] [["--strict"]])) ["foo.py"])%list
  end.
Proof.
  assert (Hl : (0 < List.length (heap (Sample.initial ["foo.py"] [["--strict"]])))%nat)
    by (simpl; lia).
  split; [exact Hl|].
  exact (mypy_options_list_mutation Sample.exported_name Sample.include_dir "linux"
           Sample.glob (Sample.process_options Sample.py3_options) Sample.generate_c
           "unix" "gcc" ["foo.py"] 0 "3" false false
           (Sample.initial ["foo.py"] [["--strict"]]) Hl).
Defined.

End Claims.

(** ** Lemmas on strings *)

Module StrFacts.

Lemma app_empty_r (s : string) : s ++ "" = s.
Proof. induction s as [|c s IH]; simpl; [reflexivity|now rewrite IH]. Qed.

Lemma app_inj_l (a b c : string) : a ++ b = a ++ c -> b = c.
Proof. induction a as [|x a IH]; simpl; [auto|]. intros H; injection H; auto. Qed.

Lemma app_inj_r (a b s : string) : a ++ s = b ++ s -> a = b.
Proof.
  revert b; induction a as [|x a IH]; intros [|y b] H; simpl in H; auto.
  - apply (f_equal String.length) in H. simpl in H.
    rewrite HexFacts.length_app in H. lia.
  - apply (f_equal String.length) in H. simpl in H.
    rewrite HexFacts.length_app in H. lia.
  - injection H as -> H. f_equal. apply IH; exact H.
Qed.

Lemma substring_full (s : string) : substring 0 (String.length s) s = s.
Proof. induction s as [|c s IH]; simpl; [reflexivity|now rewrite IH]. Qed.

Lemma substring_app_prefix (a b : string) :
  substring 0 (String.length (a ++ b) - String.length b) (a ++ b) = a.
Proof.
  rewrite HexFacts.length_app. replace (String.length a + String.length b - String.length b)
    with (String.length a) by lia.
  induction a as [|c a IH]; simpl.
  - destruct b; reflexivity.
  - now rewrite IH.
Qed.

Lemma substring_length_le n m (s : string) : String.length (substring n m s) <= m.
Proof.
  revert n m; induction s as [|c s IH]; intros [|n] [|m]; simpl; try lia.
  - specialize (IH 0 m). lia.
  - apply IH.
  - apply IH.
Qed.

Lemma contains_char_app c (a b : string) :
  Py.contains_char c (a ++ b) = Py.contains_char c a || Py.contains_char c b.
Proof.
  induction a as [|x a IH]; simpl; [reflexivity|]. rewrite IH. apply orb_assoc.
Qed.

Lemma rfind_none c (s : string) : Py2.rfind c s = None -> Py.contains_char c s = false.
Proof.
  induction s as [|d s IH]; simpl; [reflexivity|].
  destruct (Py2.rfind c s); [discriminate|].
  destruct (Ascii.eqb c d); [discriminate|]. intros _. simpl. apply IH; reflexivity.
Qed.

(** What follows the last occurrence of [c] does not contain [c]. *)
Lemma rfind_some c (s : string) k :
  Py2.rfind c s = Some k ->
  Py.contains_char c (substring (S k) (String.length s - S k) s) = false.
Proof.
  revert k; induction s as [|d s IH]; intros k; simpl; [discriminate|].
  destruct (Py2.rfind c s) as [i|] eqn:E.
  - intros H; injection H as <-. apply IH; reflexivity.
  - destruct (Ascii.eqb c d); [|discriminate]. intros H; injection H as <-.
    rewrite Nat.sub_0_r, substring_full. apply rfind_none; exact E.
Qed.

Lemma posix_split_tail_no_slash p :
  Py.contains_char Py.slash (snd (Py4.posix_split p)) = false.
Proof.
  unfold Py4.posix_split. cbn [snd].
  destruct (Py2.rfind Py.slash p) as [k|] eqn:E.
  - apply rfind_some; exact E.
  - rewrite Nat.sub_0_r, substring_full. apply rfind_none; exact E.
Qed.

Lemma ends_with_slash_app (a b : string) :
  b <> "" -> Py.ends_with_slash (a ++ b) = Py.ends_with_slash b.
Proof.
  intros Hb. induction a as [|x a IH]; [reflexivity|].
  change (String x a ++ b) with (String x (a ++ b)).
  cbn [Py.ends_with_slash]. destruct (a ++ b) eqn:E.
  - destruct a; [simpl in E; contradiction|discriminate].
  - exact IH.
Qed.

Lemma dotdots_no_slash_end k : Py.ends_with_slash (PathFacts.dotdots k) = false.
Proof.
  induction k as [|k IH]; [reflexivity|].
  destruct k as [|k]; [reflexivity|].
  change (PathFacts.dotdots (S (S k))) with ("/.." ++ PathFacts.dotdots (S k)).
  rewrite ends_with_slash_app by discriminate. exact IH.
Qed.

End StrFacts.

(** ** Lemmas on the monad and on files *)

Module MonadFacts.

Lemma bind_ok_inv {A B} (m : M A) (f : A -> M B) st b st' :
  bind m f st = (POk b, st') -> exists a st1, m st = (POk a, st1) /\ f a st1 = (POk b, st').
Proof.
  unfold bind. destruct (m st) as [[a| |] st1]; intros H; try discriminate. eauto.
Qed.

Lemma bind_fst_ok_inv {A B} (m : M A) (f : A -> M B) st b :
  fst (bind m f st) = POk b ->
  exists a st1, m st = (POk a, st1) /\ fst (f a st1) = POk b.
Proof.
  unfold bind. destruct (m st) as [[a| |] st1]; intros H; try discriminate. eauto.
Qed.

Lemma find_filter {A} (f g : A -> bool) (l : list A) :
  (forall x, f x = true -> g x = true) -> find f (filter g l) = find f l.
Proof.
  intros Hfg. induction l as [|x l IH]; simpl; [reflexivity|].
  destruct (g x) eqn:Eg; simpl.
  - destruct (f x); [reflexivity|exact IH].
  - destruct (f x) eqn:Ef; [rewrite (Hfg x Ef) in Eg; discriminate|exact IH].
Qed.

Lemma read_write p t st q :
  read_file (snd (write_file p t st)) q = if String.eqb q p then Some t else read_file st q.
Proof.
  unfold read_file, write_file. cbn [snd files find fst].
  destruct (String.eqb_spec p q) as [->|Hne].
  - rewrite String.eqb_refl. reflexivity.
  - assert (E : String.eqb q p = false) by (apply String.eqb_neq; congruence).
    rewrite E. rewrite find_filter; [reflexivity|].
    intros [k v] Hk. cbn [fst] in *. apply String.eqb_eq in Hk. subst k.
    rewrite E. reflexivity.
Qed.

Lemma find_app {A} (f : A -> bool) (l1 l2 : list A) :
  find f (l1 ++ l2) = match find f l1 with Some x => Some x | None => find f l2 end.
Proof. induction l1 as [|x l1 IH]; simpl; [reflexivity|]. destruct (f x); auto. Qed.

End MonadFacts.

(** ** Lemmas on the shim loop *)

Module ShimLoop.
Import MonadFacts.

Section S.
Variable exported_name : string -> string.
Variable platform : string.
Variable shared_lib : MypycifyExtension.
Variable d : string.
Variable cf : list string.

Local Abbreviation SHIMS sources := (build_shims exported_name platform shared_lib sources d cf).

Definition short_name (full : string) : string := Py.last_piece (Py.split "."%char full).

(** One turn of the loop. *)
Lemma build_shims_cons s rest st :
  SHIMS (s :: rest) st =
  match shim_text exported_name platform (module s) (short_name (module s)) with
  | None => (PRaise KeyError, st)
  | Some t =>
      let st1 := snd (write_file (shim_path d (module s)) t st) in
      match src_path s with
      | None | Some EmptyString => (PRaise AssertionError, st1)
      | Some path =>
          match SHIMS rest st1 with
          | (POk exts, st2) =>
              (POk (MkExt (shim_ext_name (module s) path) [shim_path d (module s)] [] cf
                          false (Some shared_lib) :: exts), st2)
          | (PExit c m, st2) => (PExit c m, st2)
          | (PRaise x, st2) => (PRaise x, st2)
          end
      end
  end.
Proof.
  cbn [build_shims]. unfold bind, generate_c_extension_shim, short_name.
  destruct (shim_text _ _ _ _) as [t|]; [|reflexivity].
  destruct (src_path s) as [[|c q]|]; try reflexivity.
Qed.

Lemma build_shims_read q sources st :
  (forall s, In s sources -> shim_path d (module s) <> q) ->
  read_file (snd (SHIMS sources st)) q = read_file st q.
Proof.
  revert st; induction sources as [|s rest IH]; intros st Hq; [reflexivity|].
  rewrite build_shims_cons. cbv zeta.
  assert (Hs : String.eqb q (shim_path d (module s)) = false).
  { apply String.eqb_neq. intros E. apply (Hq s); [left; reflexivity|congruence]. }
  destruct (shim_text _ _ _ _) as [t|]; [|reflexivity].
  destruct (src_path s) as [[|c p]|];
    try (cbn [snd]; rewrite read_write, Hs; reflexivity).
  specialize (IH (snd (write_file (shim_path d (module s)) t st))).
  rewrite read_write, Hs in IH.
  destruct (SHIMS rest _) as [[r| |] st2]; cbn [snd] in *;
    apply IH; intros s' Hin; apply Hq; right; exact Hin.
Qed.

(** On success, the shim file of the last source holds that source's shim. *)
Lemma build_shims_last pre s st exts st' :
  SHIMS (pre ++ [s]) st = (POk exts, st') ->
  read_file st' (shim_path d (module s)) =
    shim_text exported_name platform (module s) (short_name (module s)).
Proof.
  revert st exts; induction pre as [|x pre IH]; intros st exts H; simpl app in H;
    rewrite build_shims_cons in H; cbv zeta in H.
  - destruct (shim_text _ _ _ _) as [t|] eqn:T; [|discriminate].
    destruct (src_path s) as [[|c p]|]; try discriminate.
    cbn [build_shims ret] in H.
    assert (E : st' = snd (write_file (shim_path d (module s)) t st)) by congruence.
    subst st'. rewrite read_write, String.eqb_refl. reflexivity.
  - destruct (shim_text _ _ (module x) _) as [t|]; [|discriminate].
    destruct (src_path x) as [[|c p]|]; try discriminate.
    destruct (SHIMS (pre ++ [s]) _) as [[r| |] st2] eqn:E; try discriminate.
    injection H as _ <-. exact (IH _ _ E).
Qed.

(** A source without a path stops the loop with [AssertionError], after its
    shim file is written. *)
Lemma build_shims_assert pre s post st :
  Forall (fun x => exists c p, src_path x = Some (String c p)) pre ->
  (src_path s = None \/ src_path s = Some EmptyString) ->
  fst (SHIMS (pre ++ s :: post) st) = PRaise AssertionError /\
  read_file (snd (SHIMS (pre ++ s :: post) st)) (shim_path d (module s)) =
    shim_text exported_name platform (module s) (short_name (module s)).
Proof.
  intros Hpre Hs. revert st.
  induction Hpre as [|x pre [c [p Hx]] _ IH]; intros st; simpl app;
    rewrite build_shims_cons; cbv zeta.
  - destruct (ShimFacts.shim_text_some exported_name platform (module s)
                (short_name (module s))) as [t T].
    rewrite T. destruct Hs as [-> | ->]; cbn [fst snd];
      (split; [reflexivity|rewrite read_write, String.eqb_refl; reflexivity]).
  - destruct (ShimFacts.shim_text_some exported_name platform (module x)
                (short_name (module x))) as [t T].
    rewrite T, Hx. specialize (IH (snd (write_file (shim_path d (module x)) t st))).
    destruct (SHIMS (pre ++ s :: post) _) as [[r| |] st2]; cbn [fst snd] in *;
      destruct IH as [IH1 IH2]; try discriminate; auto.
Qed.

(** Each shim descriptor compiles its one shim file, with no include
    directories and the given flags. *)
Lemma build_shims_descr sources st exts st' :
  SHIMS sources st = (POk exts, st') ->
  Forall2 (fun s e => ext_sources e = [shim_path d (module s)] /\ ext_include_dirs e = [] /\
                      ext_extra_compile_args e = cf) sources exts.
Proof.
  revert st exts st'; induction sources as [|s rest IH]; intros st exts st' H.
  - cbn [build_shims ret] in H. injection H as <- _. constructor.
  - rewrite build_shims_cons in H; cbv zeta in H.
    destruct (shim_text _ _ _ _) as [t|]; [|discriminate].
    destruct (src_path s) as [[|c p]|]; try discriminate.
    destruct (SHIMS rest _) as [[r| |] st2] eqn:E; try discriminate.
    injection H as <- _. constructor; [repeat split|exact (IH _ _ _ E)].
Qed.

End S.

End ShimLoop.

(** ** Lemmas on the steps of [mypycify] *)

Module StepFacts.
Import MonadFacts.

Lemma write_cfiles_spec d cfiles st :
  fst (write_cfiles d cfiles st) =
    POk (filter (fun p => String.eqb (Py2.splitext_ext p) ".c")
                (map (fun ft => Py.path_join d [fst ft]) cfiles)) /\
  forall q, read_file (snd (write_cfiles d cfiles st)) q =
    match find (fun ft => String.eqb (Py.path_join d [fst ft]) q) (rev cfiles) with
    | Some ft => Some (snd ft)
    | None => read_file st q
    end.
Proof.
  revert st; induction cfiles as [|[f t] rest IH]; intros st.
  - split; [reflexivity|]. intros q. reflexivity.
  - cbn [write_cfiles].
    change (bind (write_file (Py.path_join d [f]) t) ?k st)
      with (k tt (snd (write_file (Py.path_join d [f]) t st))). cbv beta.
    destruct (IH (snd (write_file (Py.path_join d [f]) t st))) as [IH1 IH2].
    unfold bind.
    destruct (write_cfiles d rest _) as [r st2] eqn:E.
    cbn [fst] in IH1. subst r. split.
    + cbn [fst ret map filter]. destruct (String.eqb _ ".c"); reflexivity.
    + intros q. cbn [snd ret]. specialize (IH2 q). cbn [snd] in IH2. rewrite IH2.
      cbn [rev]. rewrite find_app.
      destruct (find (fun ft : string * string => String.eqb (Py.path_join d [fst ft]) q) (rev rest));
        [reflexivity|].
      cbn [find fst snd]. rewrite read_write.
      destruct (String.eqb_spec (Py.path_join d [f]) q) as [<-|Hne].
      * rewrite String.eqb_refl. reflexivity.
      * rewrite (proj2 (String.eqb_neq _ _)) by congruence. reflexivity.
Qed.

Lemma Forall2_Forall_r {A B} (P : A -> B -> Prop) (Q : B -> Prop) xs ys :
  (forall x y, P x y -> Q y) -> Forall2 P xs ys -> Forall Q ys.
Proof. intros HPQ H. induction H; constructor; eauto. Qed.

Section BFC.
Variable exported_name : string -> string.
Variable include_dir platform : string.
Variable glob : State -> string -> list string.
Variable generate_c : list BuildSource -> Options -> option string
                      -> PyResult (list (string * string) * string).
Variable compiler_type compiler0 : string.

Lemma build_from_config_ok sources options ol mf sk st exts :
  fst (build_from_config exported_name include_dir platform glob generate_c
         compiler_type compiler0 sources options ol mf sk st) = POk exts ->
  Forall (fun e => ext_extra_compile_args e = compute_cflags compiler_type compiler0 ol mf) exts /\
  exists cfn e0, hd_error exts = Some e0 /\
    ext_sources e0 = (cfn ++ [Py.path_join build_dir ["CPy.c"]])%list /\
    (sk = false ->
     exists cf ops,
       generate_c sources options
         (if use_shared_lib sources then Some (shared_lib_name (map module sources)) else None)
         = POk (cf, ops) /\
       cfn = filter (fun p => String.eqb (Py2.splitext_ext p) ".c")
                    (map (fun ft => Py.path_join build_dir [fst ft]) cf)).
Proof.
  intros H. unfold build_from_config in H. cbv zeta in H.
  apply bind_fst_ok_inv in H as [cfn [st1 [H1 H2]]].
  apply bind_fst_ok_inv in H2 as [u [st2 [_ H4]]].
  assert (Hres : Forall (fun e => ext_extra_compile_args e =
                                  compute_cflags compiler_type compiler0 ol mf) exts /\
                 exists e0, hd_error exts = Some e0 /\
                   ext_sources e0 = (cfn ++ [Py.path_join build_dir ["CPy.c"]])%list).
  { destruct (use_shared_lib sources).
    - unfold build_using_shared_lib in H4.
      apply bind_fst_ok_inv in H4 as [shims [st3 [H5 H6]]].
      cbn [ret fst] in H6. injection H6 as <-.
      apply ShimLoop.build_shims_descr in H5.
      split.
      + constructor; [reflexivity|].
        eapply Forall2_Forall_r; [|exact H5]. intros x y (_ & _ & Hy); exact Hy.
      + eexists; split; reflexivity.
    - destruct sources as [|s rest]; cbn [lift fst build_single_module] in H4;
        [discriminate|].
      injection H4 as <-. split; [constructor; [reflexivity|constructor]|].
      eexists; split; reflexivity. }
  split; [apply Hres|]. destruct Hres as [_ [e0 [He Hs]]].
  exists cfn, e0. split; [exact He|]. split; [exact Hs|].
  intros ->. cbn [negb] in H1.
  apply bind_ok_inv in H1 as [gen [st1' [G H1]]].
  unfold lift in G. injection G as G _.
  destruct gen as [cf ops]. exists cf, ops. split; [exact G|].
  apply bind_ok_inv in H1 as [u' [st1'' [_ H1]]].
  pose proof (proj1 (write_cfiles_spec build_dir cf st1'')) as W.
  rewrite H1 in W. cbn [fst] in W. injection W as W. exact W.
Qed.

End BFC.

(** [keeps m]: every file present before [m] is present after it. *)
Definition keeps {A} (m : M A) : Prop :=
  forall st q, read_file st q <> None -> read_file (snd (m st)) q <> None.

Lemma keeps_bind {A B} (m : M A) (f : A -> M B) :
  keeps m -> (forall a, keeps (f a)) -> keeps (bind m f).
Proof.
  intros Hm Hf st q H. specialize (Hm st q H). unfold bind.
  destruct (m st) as [[a| |] st1]; cbn [snd] in *; auto. apply Hf; exact Hm.
Qed.

Lemma keeps_ret {A} (a : A) : keeps (ret a).
Proof. intros st q H; exact H. Qed.
Lemma keeps_lift {A} (r : PyResult A) : keeps (lift r).
Proof. intros st q H; exact H. Qed.
Lemma keeps_raise {A} e : keeps (@raise A e).
Proof. intros st q H; exact H. Qed.

Lemma keeps_write p t : keeps (write_file p t).
Proof.
  intros st q H. rewrite read_write. destruct (String.eqb q p); [discriminate|exact H].
Qed.

Lemma keeps_copy a b : keeps (copyfile a b).
Proof.
  intros st q H. unfold copyfile. destruct (read_file st a); [apply keeps_write|]; exact H.
Qed.

Lemma keeps_mkdir d : keeps (mkdir_exist_ok d).
Proof.
  intros st q H. unfold mkdir_exist_ok. cbn [snd].
  destruct (path_exists _ _); exact H.
Qed.

Lemma keeps_get_config po paths mopts : keeps (get_mypy_config po paths mopts).
Proof.
  intros st q H.
  destruct (ConfigFacts.get_mypy_config_run po paths mopts st) as [h' [E _]].
  rewrite E. exact H.
Qed.

Create HintDb keep.

#[export] Hint Resolve keeps_ret keeps_lift keeps_raise keeps_write keeps_copy
  keeps_mkdir keeps_get_config : keep.

Ltac keep :=
  repeat match goal with
  | |- keeps (bind _ _) => apply keeps_bind; [|intro]
  | |- keeps (match ?x with _ => _ end) => destruct x
  | |- keeps (if ?b then _ else _) => destruct b
  | |- keeps (fun _ => _) => let st := fresh in let q := fresh in let H := fresh in
                             intros st q H; exact H
  | |- keeps _ => solve [eauto with keep]
  end.

Lemma keeps_shims e p sh srcs d cf : keeps (build_shims e p sh srcs d cf).
Proof.
  induction srcs as [|s rest IH]; cbn [build_shims]; keep.
  unfold generate_c_extension_shim. keep.
Qed.

Lemma keeps_cfiles d cfiles : keeps (write_cfiles d cfiles).
Proof. induction cfiles as [|[f t] rest IH]; cbn [write_cfiles]; keep. Qed.

#[export] Hint Resolve keeps_shims keeps_cfiles : keep.

End StepFacts.

(** ** Lemmas on [str.replace] and the configuration variables *)

Module ReplaceFacts.

Local Abbreviation REPL fuel s := (Py3.replace_fuel fuel "-bundle" "-dynamiclib" s).

(** A prefix without ['-'] of the result was already in the input: a
    replacement starts with ['-']. *)
Lemma starts_with_replaced w fuel s :
  forallb (fun c => negb (Ascii.eqb c "-"%char)) (list_ascii_of_string w) = true ->
  Py3.starts_with w (REPL fuel s) = true -> Py3.starts_with w s = true.
Proof.
  revert fuel s; induction w as [|a w IHw]; intros fuel s Hw H; [reflexivity|].
  destruct fuel as [|k]; [exact H|]. destruct s as [|c s']; [exact H|].
  cbn [list_ascii_of_string forallb] in Hw. apply andb_true_iff in Hw as [Ha Hw].
  cbn [Py3.replace_fuel] in H.
  destruct (Py3.starts_with "-bundle" (String c s')) eqn:Es.
  - cbn [Py3.starts_with append] in H. apply andb_true_iff in H as [H _].
    apply Ascii.eqb_eq in H. subst a. discriminate Ha.
  - cbn [Py3.starts_with] in H |- *. apply andb_true_iff in H as [H1 H2].
    rewrite H1. exact (IHw _ _ Hw H2).
Qed.

Lemma starts_with_cons a w c s :
  Py3.starts_with (String a w) (String c s) = Ascii.eqb a c && Py3.starts_with w s.
Proof. reflexivity. Qed.

Lemma contains_dynamiclib x :
  Py3.contains "-bundle" ("-dynamiclib" ++ x) = Py3.contains "-bundle" x.
Proof. reflexivity. Qed.

Lemma replace_fuel_no_bundle fuel s :
  String.length s <= fuel -> Py3.contains "-bundle" (REPL fuel s) = false.
Proof.
  revert s; induction fuel as [|k IH]; intros s Hlen.
  - destruct s; [reflexivity|simpl in Hlen; lia].
  - destruct s as [|c s']; [reflexivity|].
    cbn [Py3.replace_fuel].
    destruct (Py3.starts_with "-bundle" (String c s')) eqn:Es.
    + rewrite contains_dynamiclib. apply IH.
      pose proof (StrFacts.substring_length_le (String.length "-bundle")
                    (String.length (String c s') - String.length "-bundle") (String c s')).
      simpl in *. lia.
    + cbn [Py3.contains]. rewrite IH by (simpl in Hlen; lia).
      destruct (Py3.starts_with "-bundle" (String c (REPL k s'))) eqn:E2; [|reflexivity].
      exfalso. rewrite starts_with_cons in E2, Es.
      apply andb_true_iff in E2 as [E3 E4].
      apply starts_with_replaced in E4; [|reflexivity].
      rewrite E3, E4 in Es. discriminate.
Qed.

Lemma replace_no_bundle s :
  Py3.contains "-bundle" (Py3.replace "-bundle" "-dynamiclib" s) = false.
Proof. apply replace_fuel_no_bundle. lia. Qed.

Lemma var_replace_lookup k old new vars v' k' :
  var_replace k old new vars = POk v' ->
  var_lookup v' k' = if String.eqb k' k
                     then option_map (Py3.replace old new) (var_lookup vars k)
                     else var_lookup vars k'.
Proof.
  unfold var_replace. destruct (var_lookup vars k) as [v|] eqn:E; [|discriminate].
  intros H; injection H as <-. unfold var_lookup. cbn [find fst].
  rewrite String.eqb_sym.
  destruct (String.eqb_spec k' k) as [->|Hne]; [reflexivity|].
  rewrite MonadFacts.find_filter; [reflexivity|].
  intros [a b] Ha. cbn [fst] in *. apply String.eqb_eq in Ha. subst a.
  apply negb_true_iff, String.eqb_neq. exact Hne.
Qed.

End ReplaceFacts.

(** ** Lemmas on [build_extension] *)

Module BuildExtFacts.

Lemma rt_lib_path_steps (ext_nm : string) :
  get_rt_lib_path ext_nm = parent_steps (Py.count_char "."%char ext_nm).
Proof.
  unfold get_rt_lib_path, parent_steps.
  rewrite PathFacts.split_length.
  destruct (Py.count_char "."%char ext_nm) as [|k]; [reflexivity|].
  replace (1 <? S (S k))%nat with true by reflexivity.
  replace (S (S k) - 1)%nat with (S k) by lia.
  change (Py.path_join ".." (repeat ".." k) = Py.join "/" (repeat ".." (S k))).
  rewrite PathFacts.path_join_repeat_dd by (discriminate || reflexivity).
  rewrite PathFacts.join_repeat_dd. reflexivity.
Qed.

Lemma parent_steps_shape k :
  (exists r, parent_steps k = String "." r) /\ Py.ends_with_slash (parent_steps k) = false.
Proof.
  destruct k as [|k]; [split; [eexists; reflexivity|reflexivity]|].
  unfold parent_steps. rewrite PathFacts.join_repeat_dd. split; [eexists; reflexivity|].
  destruct k as [|k]; [reflexivity|].
  rewrite StrFacts.ends_with_slash_app by discriminate.
  apply StrFacts.dotdots_no_slash_end.
Qed.

Lemma loader_path_join rel f :
  (exists r, rel = String "." r) -> Py.ends_with_slash rel = false ->
  f <> "" -> Py.contains_char Py.slash f = false ->
  Py.path_join "@loader_path" [rel; f] = "@loader_path/" ++ rel ++ "/" ++ f.
Proof.
  intros [r ->] Hr Hf Hs. destruct f as [|c f]; [contradiction|].
  cbn [Py.contains_char] in Hs. apply orb_false_iff in Hs as [Hc _].
  unfold Py.path_join. cbn [fold_left].
  change (Ascii.eqb "." Py.slash) with false. cbv iota.
  change ((String.eqb "@loader_path" "" || Py.ends_with_slash "@loader_path")%bool) with false.
  cbv iota. rewrite Ascii.eqb_sym in Hc. rewrite Hc.
  replace (String.eqb ("@loader_path" ++ "/" ++ String "." r) "") with false by reflexivity.
  rewrite (StrFacts.ends_with_slash_app "@loader_path" ("/" ++ String "." r)) by discriminate.
  change (Py.ends_with_slash ("/" ++ String "." r)) with (Py.ends_with_slash (String "." r)).
  rewrite Hr. cbn [orb].
  rewrite !PathFacts.str_app_assoc. reflexivity.
Qed.

Lemma ospath_posix nt p : p <> "win32" -> ospath p nt = posixpath.
Proof. intros H. unfold ospath. apply String.eqb_neq in H. rewrite H. reflexivity. Qed.

Lemma rt_lib_path_posix n : rt_lib_path posixpath n = get_rt_lib_path n.
Proof. reflexivity. Qed.

End BuildExtFacts.

(* ================================================================== *)
(** * Further properties of the code *)

Module Extras.
Import StepFacts.

(** X1: when [get_mypy_config] returns, [process_options] accepted the
    argument list and returned the same sources; the options are for
    Python 3 with strict optional checking; tracebacks and type export are
    on, incremental mode is off, and every source module is marked for
    mypyc after the modules already marked. *)
Theorem get_mypy_config_success po paths mopts st sources options'
    (H : fst (get_mypy_config po paths mopts st) = POk (sources, options')) :
  exists options,
    po (ConfigFacts.mypy_args (heap st) paths mopts) = POk (sources, options) /\
    python_version_major options <> 2 /\
    python_version_major options' = python_version_major options /\
    strict_optional options' = true /\
    show_traceback options' = true /\ export_types options' = true /\
    incremental options' = false /\
    mypyc_modules options' = (mypyc_modules options ++ map module sources)%list /\
    Forall (fun s => In (module s) (mypyc_modules options')) sources.
Proof.
  destruct (ConfigFacts.get_mypy_config_run po paths mopts st) as [h' [E _]].
  rewrite E in H. cbn [fst] in H. unfold check_config in H.
  destruct (po _) as [[srcs opts]| |]; try discriminate.
  exists opts.
  destruct (Nat.eqb_spec (python_version_major opts) 2) as [|Hv]; [discriminate|].
  destruct (strict_optional opts) eqn:Es; cbn [negb] in H; [|discriminate].
  injection H as <- <-. cbn [python_version_major strict_optional show_traceback
                              export_types incremental mypyc_modules].
  repeat split; auto.
  apply Forall_forall. intros s Hs. apply in_or_app. right. apply in_map. exact Hs.
Qed.

Lemma get_mypy_config_success_witness :
  exists sources options',
    fst (get_mypy_config (Sample.process_options Sample.py3_options) ["foo.py"] None
           (Sample.initial ["foo.py"] [])) = POk (sources, options') /\
    exists options,
      Sample.process_options Sample.py3_options
        (ConfigFacts.mypy_args (heap (Sample.initial ["foo.py"] [])) ["foo.py"] None)
        = POk (sources, options) /\
      python_version_major options <> 2 /\
      python_version_major options' = python_version_major options /\
      strict_optional options' = true /\
      show_traceback options' = true /\ export_types options' = true /\
      incremental options' = false /\
      mypyc_modules options' = (mypyc_modules options ++ map module sources)%list /\
      Forall (fun s => In (module s) (mypyc_modules options')) sources.
Proof.
  do 2 eexists. split; [reflexivity|].
  eapply (get_mypy_config_success (Sample.process_options Sample.py3_options) ["foo.py"] None
            (Sample.initial ["foo.py"] [])).
  reflexivity.
Defined.

(** X2: with MSVC, the flags start with the optimisation flag, which is
    [/O2] for level ['3'] ([/O3] never appears); multi-file mode appends
    exactly [/GL-] and [/wd9025]. *)
Theorem cflags_msvc c0 ol mf :
  hd_error (compute_cflags "msvc" c0 ol mf)
    = Some ("/O" ++ (if String.eqb ol "3" then "2" else ol)) /\
  ~ In "/O3" (compute_cflags "msvc" c0 ol mf) /\
  compute_cflags "msvc" c0 ol true = (compute_cflags "msvc" c0 ol false ++ ["/GL-"; "/wd9025"])%list.
Proof.
  assert (E : forall mf', compute_cflags "msvc" c0 ol mf' =
    ([String.append "/O" (if String.eqb ol "3" then "2" else ol); "/wd4102"; "/wd4101"; "/wd4146"]
     ++ (if mf' then ["/GL-"; "/wd9025"] else []))%list) by reflexivity.
  rewrite !E. split; [reflexivity|]. split; [|reflexivity].
  intros Hin. apply in_app_or in Hin as [Hin|Hin].
  - destruct Hin as [Hin|Hin].
    + destruct (String.eqb_spec ol "3") as [_|Hne]; [discriminate|].
      apply Hne. apply (StrFacts.app_inj_l "/O"). exact Hin.
    + repeat destruct Hin as [Hin|Hin]; try discriminate; contradiction.
  - destruct mf; [|contradiction]. repeat destruct Hin as [Hin|Hin]; try discriminate; contradiction.
Qed.

(** X3: for a compiler other than MSVC the multi-file setting changes
    nothing; with ['unix'] the flags start with [-O] and the level, and
    [-Wno-unused-but-set-variable] is added exactly when the compiler
    command contains [gcc]; any other compiler type gets no flags. *)
Theorem cflags_non_msvc ct c0 ol mf (Hct : ct <> "msvc") :
  compute_cflags ct c0 ol mf = compute_cflags ct c0 ol (negb mf) /\
  (ct = "unix" ->
     hd_error (compute_cflags ct c0 ol mf) = Some ("-O" ++ ol) /\
     (In "-Wno-unused-but-set-variable" (compute_cflags ct c0 ol mf) <->
      Py2.str_contains "gcc" c0 = true)) /\
  (ct <> "unix" -> compute_cflags ct c0 ol mf = []).
Proof.
  unfold compute_cflags. apply String.eqb_neq in Hct. rewrite Hct.
  split; [reflexivity|]. split.
  - intros ->. cbn [String.eqb Ascii.eqb Bool.eqb andb]. split; [reflexivity|].
    split.
    + intros Hin. apply in_app_or in Hin as [Hin|Hin].
      * repeat destruct Hin as [Hin|Hin]; try discriminate; contradiction.
      * destruct (Py2.str_contains "gcc" c0); [reflexivity|contradiction].
    + intros ->. apply in_or_app. right. left. reflexivity.
  - intros Hu. apply String.eqb_neq in Hu. rewrite Hu. reflexivity.
Qed.

Lemma cflags_non_msvc_witness :
  "unix" <> "msvc" /\
  compute_cflags "unix" "gcc" "3" true = compute_cflags "unix" "gcc" "3" (negb true) /\
  ("unix" = "unix" ->
     hd_error (compute_cflags "unix" "gcc" "3" true) = Some ("-O" ++ "3") /\
     (In "-Wno-unused-but-set-variable" (compute_cflags "unix" "gcc" "3" true) <->
      Py2.str_contains "gcc" "gcc" = true)) /\
  ("unix" <> "unix" -> compute_cflags "unix" "gcc" "3" true = []).
Proof.
  assert (Hct : "unix" <> "msvc") by discriminate.
  split; [exact Hct|]. apply (cflags_non_msvc "unix" "gcc" "3" true Hct).
Defined.

(** X4: writing the generated files returns, in order, the paths under
    the directory whose extension is [.c]; afterwards every such path
    holds the text of the last generated file written there, and the other
    files are untouched. *)
Theorem write_cfiles_result d cfiles st :
  fst (write_cfiles d cfiles st) =
    POk (filter (fun p => String.eqb (Py2.splitext_ext p) ".c")
                (map (fun ft => Py.path_join d [fst ft]) cfiles)) /\
  forall q, read_file (snd (write_cfiles d cfiles st)) q =
    match find (fun ft => String.eqb (Py.path_join d [fst ft]) q) (rev cfiles) with
    | Some ft => Some (snd ft)
    | None => read_file st q
    end.
Proof. exact (StepFacts.write_cfiles_spec d cfiles st). Qed.

Section Run.
Variable exported_name : string -> string.
Variable include_dir platform : string.
Variable glob : State -> string -> list string.
Variable process_options : list string -> PyResult (list BuildSource * Options).
Variable generate_c : list BuildSource -> Options -> option string
                      -> PyResult (list (string * string) * string).
Variable compiler_type compiler0 : string.

Local Abbreviation RUN paths mopts ol mf sk st :=
  (mypycify exported_name include_dir platform glob process_options generate_c
            compiler_type compiler0 paths mopts ol mf sk st).

Lemma get_config_after_mkdir paths mopts st :
  get_mypy_config process_options paths mopts (snd (mkdir_exist_ok build_dir st)) =
  (fst (get_mypy_config process_options paths mopts st),
   snd (get_mypy_config process_options paths mopts (snd (mkdir_exist_ok build_dir st)))).
Proof.
  destruct (ConfigFacts.get_mypy_config_run process_options paths mopts st) as [h1 [E1 _]].
  destruct (ConfigFacts.get_mypy_config_run process_options paths mopts
              (snd (mkdir_exist_ok build_dir st))) as [h2 [E2 _]].
  rewrite Frame.mkdir_heap in E2. rewrite E1, E2. reflexivity.
Qed.

(** X5: every descriptor [mypycify] returns carries the compiler flags
    computed from the compiler, the optimisation level and the multi-file
    setting. *)
Theorem mypycify_flags paths mopts ol mf sk st exts
    (H : fst (RUN paths mopts ol mf sk st) = POk exts) :
  Forall (fun e => ext_extra_compile_args e = compute_cflags compiler_type compiler0 ol mf) exts.
Proof.
  rewrite RunFacts.mypycify_unfold in H.
  apply MonadFacts.bind_fst_ok_inv in H as [[sources options] [st1 [_ H]]].
  exact (proj1 (StepFacts.build_from_config_ok exported_name include_dir platform glob
                  generate_c compiler_type compiler0 sources options ol mf _ _ _ H)).
Qed.

(** X6: when C generation runs, the first descriptor (the shared library,
    or the single module) compiles the generated files whose extension is
    [.c], in the order produced, under [build], and then the copied
    runtime [build/CPy.c]; the other generated files (headers) are not
    compiled. *)
Theorem mypycify_compiled_files paths mopts ol mf st exts
    (H : fst (RUN paths mopts ol mf false st) = POk exts) :
  exists sources options cf ops e0,
    fst (get_mypy_config process_options (flat_map (glob st) paths) mopts st)
      = POk (sources, options) /\
    generate_c sources options
      (if use_shared_lib sources then Some (shared_lib_name (map module sources)) else None)
      = POk (cf, ops) /\
    hd_error exts = Some e0 /\
    ext_sources e0 =
      (filter (fun p => String.eqb (Py2.splitext_ext p) ".c")
              (map (fun ft => Py.path_join build_dir [fst ft]) cf)
       ++ [Py.path_join build_dir ["CPy.c"]])%list.
Proof.
  rewrite RunFacts.mypycify_unfold in H.
  apply MonadFacts.bind_fst_ok_inv in H as [[sources options] [st1 [Hc H]]].
  destruct (StepFacts.build_from_config_ok exported_name include_dir platform glob
              generate_c compiler_type compiler0 sources options ol mf _ _ _ H)
    as [_ [cfn [e0 [He [Hs Hg]]]]].
  destruct (Hg eq_refl) as [cf [ops [G Hcf]]].
  exists sources, options, cf, ops, e0.
  split; [|split; [exact G|split; [exact He|rewrite Hs, Hcf; reflexivity]]].
  rewrite get_config_after_mkdir in Hc. injection Hc as Hc _. exact Hc.
Qed.

(** X11: [mypycify] adds the directory [build] when nothing of that name
    exists and otherwise (an existing directory or regular file [build])
    leaves the directories as they were, whatever the outcome. *)
Theorem mypycify_dirs paths mopts ol mf sk st :
  dirs (snd (RUN paths mopts ol mf sk st)) =
    if path_exists st build_dir then dirs st else build_dir :: dirs st.
Proof.
  rewrite RunFacts.mypycify_unfold.
  rewrite (Frame.bind_snd_proj dirs).
  - destruct (ConfigFacts.get_mypy_config_run process_options (flat_map (glob st) paths) mopts
                (snd (mkdir_exist_ok build_dir st))) as [h' [E _]].
    rewrite E. cbn [dirs]. unfold mkdir_exist_ok. cbn [snd].
    destruct (path_exists _ _); reflexivity.
  - intros [sources options].
    apply Frame.build_from_config_frame; [apply Frame.write_file_dirs|apply Frame.copyfile_dirs].
Qed.

(** X12: [mypycify] never removes a file: every file present before the
    run is present after it, whatever the outcome. *)
Theorem mypycify_keeps_files paths mopts ol mf sk st q
    (H : read_file st q <> None) :
  read_file (snd (RUN paths mopts ol mf sk st)) q <> None.
Proof.
  rewrite RunFacts.mypycify_unfold.
  assert (K : StepFacts.keeps
    (bind (get_mypy_config process_options (flat_map (glob st) paths) mopts)
       (fun cfg => let '(sources, options) := cfg in
                   build_from_config exported_name include_dir platform glob generate_c
                     compiler_type compiler0 sources options ol mf sk))).
  { apply StepFacts.keeps_bind; [apply StepFacts.keeps_get_config|].
    intros [sources options]. unfold build_from_config, build_using_shared_lib. cbv zeta.
    StepFacts.keep. }
  apply K. apply StepFacts.keeps_mkdir. exact H.
Qed.

End Run.

Lemma mypycify_flags_witness :
  exists exts,
    fst (Sample.run Sample.py3_options ["foo.py"] None (Sample.initial ["foo.py"] [])) = POk exts /\
    Forall (fun e => ext_extra_compile_args e = compute_cflags "unix" "gcc" "3" false) exts.
Proof.
  eexists. split; [cbv; reflexivity|].
  eapply (mypycify_flags Sample.exported_name Sample.include_dir "linux" Sample.glob
            (Sample.process_options Sample.py3_options) Sample.generate_c "unix" "gcc"
            ["foo.py"] None "3" false false (Sample.initial ["foo.py"] [])).
  cbv; reflexivity.
Defined.

Lemma mypycify_compiled_files_witness :
  exists exts,
    fst (Sample.run Sample.py3_options ["foo.py"] None (Sample.initial ["foo.py"] [])) = POk exts /\
    exists sources options cf ops e0,
      fst (get_mypy_config (Sample.process_options Sample.py3_options)
             (flat_map (Sample.glob (Sample.initial ["foo.py"] [])) ["foo.py"]) None
             (Sample.initial ["foo.py"] []))
        = POk (sources, options) /\
      Sample.generate_c sources options
        (if use_shared_lib sources then Some (shared_lib_name (map module sources)) else None)
        = POk (cf, ops) /\
      hd_error exts = Some e0 /\
      ext_sources e0 =
        (filter (fun p => String.eqb (Py2.splitext_ext p) ".c")
                (map (fun ft => Py.path_join build_dir [fst ft]) cf)
         ++ [Py.path_join build_dir ["CPy.c"]])%list.
Proof.
  eexists. split; [cbv; reflexivity|].
  eapply (mypycify_compiled_files Sample.exported_name Sample.include_dir "linux" Sample.glob
            (Sample.process_options Sample.py3_options) Sample.generate_c "unix" "gcc"
            ["foo.py"] None "3" false (Sample.initial ["foo.py"] [])).
  cbv; reflexivity.
Defined.

Lemma mypycify_keeps_files_witness :
  read_file (Sample.initial ["foo.py"] []) "foo.py" <> None /\
  read_file (snd (Sample.run Sample.py3_options ["foo.py"] None (Sample.initial ["foo.py"] [])))
    "foo.py" <> None.
Proof.
  assert (H : read_file (Sample.initial ["foo.py"] []) "foo.py" <> None) by discriminate.
  split; [exact H|].
  exact (mypycify_keeps_files Sample.exported_name Sample.include_dir "linux" Sample.glob
           (Sample.process_options Sample.py3_options) Sample.generate_c "unix" "gcc"
           ["foo.py"] None "3" false false (Sample.initial ["foo.py"] []) "foo.py" H).
Defined.


(* ------------------------------------------------------------------ *)
(** ** The shim loop of [build_using_shared_lib] *)

Lemma replace_char_dot_inv (m s : string) :
  Py.contains_char "_"%char s = false -> Py.replace_char "."%char "___" m = s -> m = s.
Proof.
  revert s; induction m as [|d m IH]; intros s Hs E; cbn [Py.replace_char] in E.
  - exact E.
  - destruct (Ascii.eqb "."%char d).
    + subst s. discriminate Hs.
    + cbn [append] in E. subst s. cbn [Py.contains_char] in Hs.
      apply orb_false_iff in Hs as [_ Hs]. f_equal. apply IH; [exact Hs|reflexivity].
Qed.

(** Only the module [CPy] has its shim at the path of the copied runtime. *)
Lemma shim_path_runtime (m : string) :
  shim_path build_dir m = Py.path_join build_dir ["CPy.c"] -> m = "CPy".
Proof.
  unfold shim_path, Py.path_join. cbn [fold_left].
  destruct (Py.replace_char "."%char "___" m) as [|c r] eqn:Er; [discriminate|].
  cbn [append]. intros E.
  destruct (Ascii.eqb c Py.slash) eqn:Ec.
  - apply Ascii.eqb_eq in Ec. subst c. discriminate E.
  - change ((String.eqb build_dir "" || Py.ends_with_slash build_dir)%bool) with false in E.
    cbv iota in E.
    change (build_dir ++ "/" ++ String c (r ++ ".c") = "build/" ++ "CPy.c") in E.
    change (build_dir ++ "/" ++ String c (r ++ ".c")) with ("build/" ++ String c (r ++ ".c")) in E.
    apply StrFacts.app_inj_l in E.
    change (String c (r ++ ".c") = "CPy" ++ ".c") in E.
    change (String c r ++ ".c" = "CPy" ++ ".c") in E.
    apply StrFacts.app_inj_r in E.
    apply replace_char_dot_inv; [reflexivity|]. rewrite Er. exact E.
Qed.

(** X7: the shims are written after the runtime is copied to
    [build/CPy.c]: with no module named [CPy] the copy is left as it was,
    and a successful loop whose last module is named [CPy] leaves that
    module's shim in place of the runtime. *)
Theorem shims_runtime_copy exported_name platform sh sources cf st :
  (Forall (fun s => module s <> "CPy") sources ->
     read_file (snd (build_shims exported_name platform sh sources build_dir cf st))
               (Py.path_join build_dir ["CPy.c"])
     = read_file st (Py.path_join build_dir ["CPy.c"])) /\
  (forall pre s exts st', module s = "CPy" ->
     build_shims exported_name platform sh (pre ++ [s]) build_dir cf st = (POk exts, st') ->
     read_file st' (Py.path_join build_dir ["CPy.c"]) = shim_text exported_name platform "CPy" "CPy").
Proof.
  split.
  - intros Hm. apply ShimLoop.build_shims_read. intros s Hin E.
    rewrite Forall_forall in Hm. apply (Hm s Hin). apply shim_path_runtime. exact E.
  - intros pre s exts st' Hs H.
    pose proof (ShimLoop.build_shims_last exported_name platform sh build_dir cf pre s st exts st' H)
      as L.
    rewrite Hs in L. exact L.
Qed.

Lemma shims_runtime_copy_witness :
  (Forall (fun s => module s <> "CPy") sample_sources ->
     read_file (snd (build_shims Sample.exported_name "linux" (shared_lib_ext "lib-rt" "x" [] [])
                      sample_sources build_dir [] (Sample.initial [] [])))
               (Py.path_join build_dir ["CPy.c"])
     = read_file (Sample.initial [] []) (Py.path_join build_dir ["CPy.c"])) /\
  (forall pre s exts st', module s = "CPy" ->
     build_shims Sample.exported_name "linux" (shared_lib_ext "lib-rt" "x" [] [])
       (pre ++ [s]) build_dir [] (Sample.initial [] []) = (POk exts, st') ->
     read_file st' (Py.path_join build_dir ["CPy.c"])
       = shim_text Sample.exported_name "linux" "CPy" "CPy").
Proof. apply shims_runtime_copy. Defined.

(** X8: when the loop succeeds, the shim file of the last source holds
    that source's shim, even when an earlier source has the same shim
    path (as [a.b] and [a___b] do). *)
Theorem shims_last_written exported_name platform sh d cf pre s st exts st'
    (H : build_shims exported_name platform sh (pre ++ [s]) d cf st = (POk exts, st')) :
  read_file st' (shim_path d (module s)) =
    shim_text exported_name platform (module s) (Py.last_piece (Py.split "."%char (module s))).
Proof. exact (ShimLoop.build_shims_last exported_name platform sh d cf pre s st exts st' H). Qed.

Lemma shims_last_written_witness :
  exists exts st',
    build_shims Sample.exported_name "linux" (shared_lib_ext "lib-rt" "x" [] [])
      ([MkSource "a.b" (Some "a/b.py")] ++ [MkSource "a___b" (Some "a___b.py")])
      "build" [] (Sample.initial [] []) = (POk exts, st') /\
    shim_path "build" "a.b" = shim_path "build" "a___b" /\
    read_file st' (shim_path "build" "a___b") =
      shim_text Sample.exported_name "linux" "a___b"
        (Py.last_piece (Py.split "."%char "a___b")).
Proof.
  do 2 eexists. split; [cbv; reflexivity|]. split; [reflexivity|].
  eapply (shims_last_written Sample.exported_name "linux" (shared_lib_ext "lib-rt" "x" [] [])
            "build" [] [MkSource "a.b" (Some "a/b.py")] (MkSource "a___b" (Some "a___b.py"))
            (Sample.initial [] [])).
  cbv; reflexivity.
Defined.

(** X9: a source without a path (or with an empty one) stops the loop
    with [AssertionError], but only after its shim file is written. *)
Theorem shims_assert_after_write exported_name platform sh d cf pre s post st
    (Hpre : Forall (fun x => exists c p, src_path x = Some (String c p)) pre)
    (Hs : src_path s = None \/ src_path s = Some EmptyString) :
  fst (build_shims exported_name platform sh (pre ++ s :: post) d cf st) = PRaise AssertionError /\
  read_file (snd (build_shims exported_name platform sh (pre ++ s :: post) d cf st))
            (shim_path d (module s)) =
    shim_text exported_name platform (module s) (Py.last_piece (Py.split "."%char (module s))).
Proof. exact (ShimLoop.build_shims_assert exported_name platform sh d cf pre s post st Hpre Hs). Qed.

Lemma shims_assert_after_write_witness :
  fst (build_shims Sample.exported_name "linux" (shared_lib_ext "lib-rt" "x" [] [])
         ([MkSource "a" (Some "a.py")] ++ MkSource "b" None :: []) "build" [] (Sample.initial [] []))
    = PRaise AssertionError /\
  read_file (snd (build_shims Sample.exported_name "linux" (shared_lib_ext "lib-rt" "x" [] [])
                    ([MkSource "a" (Some "a.py")] ++ MkSource "b" None :: []) "build" []
                    (Sample.initial [] [])))
            (shim_path "build" "b") =
    shim_text Sample.exported_name "linux" "b" (Py.last_piece (Py.split "."%char "b")).
Proof.
  apply (shims_assert_after_write Sample.exported_name "linux" (shared_lib_ext "lib-rt" "x" [] [])
           "build" [] [MkSource "a" (Some "a.py")] (MkSource "b" None) []).
  - repeat constructor. do 2 eexists. reflexivity.
  - left. reflexivity.
Defined.

Lemma shims_written exported_name platform sh d cf sources st exts st' :
  build_shims exported_name platform sh sources d cf st = (POk exts, st') ->
  Forall (fun s => read_file st' (shim_path d (module s)) <> None) sources.
Proof.
  revert st exts st'; induction sources as [|s rest IH]; intros st exts st' H; [constructor|].
  rewrite ShimLoop.build_shims_cons in H; cbv zeta in H.
  destruct (shim_text _ _ _ _) as [t|]; [|discriminate].
  destruct (src_path s) as [[|c p]|]; try discriminate.
  destruct (build_shims exported_name platform sh rest d cf _) as [[r| |] st2] eqn:E;
    try discriminate.
  injection H as _ <-. constructor; [|exact (IH _ _ _ E)].
  pose proof (keeps_shims exported_name platform sh rest d cf
                (snd (write_file (shim_path d (module s)) t st)) (shim_path d (module s))) as K.
  rewrite E in K. apply K. rewrite ShimFacts.read_after_write. discriminate.
Qed.

(** X10: a successful shared build returns first the shared library,
    named [lib] followed by the library name, compiling the given C files
    with the runtime headers' directory and the flags; then one shim per
    source, compiling only that source's shim file with the same flags and
    no include directory; and every shim file exists afterwards. *)
Theorem shared_build_contents exported_name include_dir platform sources lib_name
    cfiles d cflags st exts st'
    (H : build_using_shared_lib exported_name include_dir platform sources lib_name
           cfiles d cflags st = (POk exts, st')) :
  hd_error exts = Some (MkExt ("lib" ++ lib_name) cfiles [include_dir] cflags true None) /\
  Forall2 (fun s e => ext_sources e = [shim_path d (module s)] /\ ext_include_dirs e = [] /\
                      ext_extra_compile_args e = cflags) sources (tl exts) /\
  Forall (fun s => read_file st' (shim_path d (module s)) <> None) sources.
Proof.
  unfold build_using_shared_lib in H.
  apply MonadFacts.bind_ok_inv in H as [shims [st1 [H1 H2]]].
  cbn [ret] in H2. injection H2 as <- <-.
  split; [reflexivity|]. split.
  - exact (ShimLoop.build_shims_descr _ _ _ _ _ _ _ _ _ H1).
  - exact (shims_written _ _ _ _ _ _ _ _ _ H1).
Qed.

Lemma shared_build_contents_witness :
  exists exts st',
    build_using_shared_lib Sample.exported_name "lib-rt" "linux" sample_sources
      "mypyc_x" ["build/CPy.c"] "build" [] (Sample.initial [] []) = (POk exts, st') /\
    hd_error exts = Some (MkExt ("lib" ++ "mypyc_x") ["build/CPy.c"] ["lib-rt"] [] true None) /\
    Forall2 (fun s e => ext_sources e = [shim_path "build" (module s)] /\ ext_include_dirs e = [] /\
                        ext_extra_compile_args e = []) sample_sources (tl exts) /\
    Forall (fun s => read_file st' (shim_path "build" (module s)) <> None) sample_sources.
Proof.
  do 2 eexists. split; [reflexivity|].
  eapply (shared_build_contents Sample.exported_name "lib-rt" "linux" sample_sources
            "mypyc_x" ["build/CPy.c"] "build" [] (Sample.initial [] [])).
  reflexivity.
Defined.

(* ------------------------------------------------------------------ *)
(** ** The shim texts *)

(** X13: off Windows the shim defines [PyInit_] of the short name, which
    returns [CPyInit_] of the exported full name, declared just above. *)
Theorem shim_text_unix exported_name platform full_module_name module_name
    (Hp : platform <> "win32") :
  shim_text exported_name platform full_module_name module_name = Some (
"#include <Python.h>

PyObject *CPyInit_" ++ exported_name full_module_name ++ "(void);

PyMODINIT_FUNC
PyInit_" ++ module_name ++ "(void)
{
    return CPyInit_" ++ exported_name full_module_name ++ "();
}
").
Proof.
  unfold shim_text, shim_template. apply String.eqb_neq in Hp. rewrite Hp. reflexivity.
Qed.

Lemma shim_text_unix_witness :
  shim_text Sample.exported_name "linux" "a.b" "b" = Some (
"#include <Python.h>

PyObject *CPyInit_" ++ Sample.exported_name "a.b" ++ "(void);

PyMODINIT_FUNC
PyInit_" ++ "b" ++ "(void)
{
    return CPyInit_" ++ Sample.exported_name "a.b" ++ "();
}
").
Proof. apply shim_text_unix. discriminate. Defined.

(** X14: on Windows the shim loads the library named by [MYPYC_LIBRARY]
    next to itself, looks up [CPyInit_] of the exported full name there and
    calls it from [PyInit_] of the short name, and also defines
    [PyInit___init__]; the braces of the template become single braces. *)
Theorem shim_text_windows exported_name full_module_name module_name :
  shim_text exported_name "win32" full_module_name module_name = Some (
"\
#include <Python.h>
#include <windows.h>
#include <stdlib.h>
#include <stdio.h>

EXTERN_C IMAGE_DOS_HEADER __ImageBase;

typedef PyObject *(__cdecl *INITPROC)();

PyMODINIT_FUNC
PyInit_" ++ module_name ++ "(void)
{
    char path[MAX_PATH];
    char drive[MAX_PATH];
    char directory[MAX_PATH];
    HINSTANCE hinstLib;
    INITPROC proc;

    // get the file name of this dll
    DWORD res = GetModuleFileName((HINSTANCE)&__ImageBase, path, sizeof(path));
    if (res == 0 || res == sizeof(path)) {
        PyErr_SetString(PyExc_RuntimeError, " ++ dq ++ "GetModuleFileName failed" ++ dq ++ ");
        return NULL;
    }

    // find the directory this dll is in
    _splitpath(path, drive, directory, NULL, NULL);
    // and use it to construct a path to the shared library
    snprintf(path, sizeof(path), " ++ dq ++ "%s%s%s" ++ dq ++ ", drive, directory, MYPYC_LIBRARY);

    hinstLib = LoadLibrary(path);
    if (!hinstLib) {
        PyErr_SetString(PyExc_RuntimeError, " ++ dq ++ "LoadLibrary failed" ++ dq ++ ");
        return NULL;
    }
    proc = (INITPROC)GetProcAddress(hinstLib, " ++ dq ++ "CPyInit_" ++ exported_name full_module_name ++ dq ++ ");
    if (!proc) {
        PyErr_SetString(PyExc_RuntimeError, " ++ dq ++ "GetProcAddress failed" ++ dq ++ ");
        return NULL;
    }

    return proc();
}

// distutils sometimes spuriously tells cl to export CPyInit___init__,
// so provide that so it chills out
PyMODINIT_FUNC PyInit___init__(void) { return PyInit_" ++ module_name ++ "(); }
").
Proof. reflexivity. Qed.

(* ------------------------------------------------------------------ *)
(** ** [decorator_helper_name] *)

(** X15: different function names get different helper names. *)
Theorem decorator_helper_name_injective f g
    (H : decorator_helper_name f = decorator_helper_name g) : f = g.
Proof.
  unfold decorator_helper_name in H.
  apply StrFacts.app_inj_l in H. apply StrFacts.app_inj_r in H. exact H.
Qed.

Lemma decorator_helper_name_injective_witness :
  decorator_helper_name "f" = decorator_helper_name "f" /\ "f" = "f".
Proof.
  assert (H : decorator_helper_name "f" = decorator_helper_name "f") by reflexivity.
  split; [exact H|exact (decorator_helper_name_injective "f" "f" H)].
Defined.

(* ------------------------------------------------------------------ *)
(** ** [setup_mypycify_vars] *)

Lemma var_replace_cases k old new vars :
  (var_lookup vars k = None /\ var_replace k old new vars = PRaise KeyError) \/
  (exists v v', var_lookup vars k = Some v /\ var_replace k old new vars = POk v').
Proof.
  unfold var_replace. destruct (var_lookup vars k) as [v|]; [right|left]; eauto.
Qed.

(** X16: on macOS the variables end with [-dynamiclib] for [-bundle] in
    [LDSHARED] (no [-bundle] is left there) and [-arch i386] removed from
    [LDFLAGS] and [CFLAGS], all other variables unchanged; a [KeyError] is
    raised exactly when one of the three variables is missing. *)
Theorem setup_vars_darwin vars :
  (forall v', setup_mypycify_vars "darwin" vars = POk v' ->
     (exists s, var_lookup vars "LDSHARED" = Some s /\
        var_lookup v' "LDSHARED" = Some (Py3.replace "-bundle" "-dynamiclib" s) /\
        Py3.contains "-bundle" (Py3.replace "-bundle" "-dynamiclib" s) = false) /\
     var_lookup v' "LDFLAGS" = option_map (Py3.replace "-arch i386" "") (var_lookup vars "LDFLAGS") /\
     var_lookup v' "CFLAGS" = option_map (Py3.replace "-arch i386" "") (var_lookup vars "CFLAGS") /\
     (forall k, k <> "LDSHARED" -> k <> "LDFLAGS" -> k <> "CFLAGS" ->
        var_lookup v' k = var_lookup vars k)) /\
  (setup_mypycify_vars "darwin" vars = PRaise KeyError <->
     var_lookup vars "LDSHARED" = None \/ var_lookup vars "LDFLAGS" = None \/
     var_lookup vars "CFLAGS" = None).
Proof.
  unfold setup_mypycify_vars. cbn [String.eqb Ascii.eqb Bool.eqb andb]. cbv iota.
  destruct (var_replace_cases "LDSHARED" "-bundle" "-dynamiclib" vars)
    as [[N1 R1]|[s1 [v1 [S1 R1]]]]; rewrite R1.
  { split; [discriminate|]. split; [intros _; left; exact N1|reflexivity]. }
  pose proof (ReplaceFacts.var_replace_lookup _ _ _ _ _ "LDFLAGS" R1) as L1F.
  pose proof (ReplaceFacts.var_replace_lookup _ _ _ _ _ "CFLAGS" R1) as L1C.
  cbn [String.eqb Ascii.eqb Bool.eqb andb] in L1F, L1C.
  destruct (var_replace_cases "LDFLAGS" "-arch i386" "" v1) as [[N2 R2]|[s2 [v2 [S2 R2]]]];
    rewrite R2.
  { split; [discriminate|]. split; [intros _; right; left; congruence|reflexivity]. }
  pose proof (ReplaceFacts.var_replace_lookup _ _ _ _ _ "CFLAGS" R2) as L2C.
  cbn [String.eqb Ascii.eqb Bool.eqb andb] in L2C.
  destruct (var_replace_cases "CFLAGS" "-arch i386" "" v2) as [[N3 R3]|[s3 [v3 [S3 R3]]]];
    rewrite R3.
  { split; [discriminate|]. split; [intros _; right; right; congruence|reflexivity]. }
  split.
  2: { split; [discriminate|]. intros [E|[E|E]]; congruence. }
  intros v' E. injection E as <-.
  assert (L : forall k, var_lookup v3 k =
    if String.eqb k "CFLAGS" then option_map (Py3.replace "-arch i386" "") (var_lookup v2 "CFLAGS")
    else if String.eqb k "LDFLAGS" then option_map (Py3.replace "-arch i386" "") (var_lookup v1 "LDFLAGS")
    else if String.eqb k "LDSHARED"
         then option_map (Py3.replace "-bundle" "-dynamiclib") (var_lookup vars "LDSHARED")
    else var_lookup vars k).
  { intros k. rewrite (ReplaceFacts.var_replace_lookup _ _ _ _ _ k R3).
    destruct (String.eqb k "CFLAGS"); [reflexivity|].
    rewrite (ReplaceFacts.var_replace_lookup _ _ _ _ _ k R2).
    destruct (String.eqb k "LDFLAGS"); [reflexivity|].
    exact (ReplaceFacts.var_replace_lookup _ _ _ _ _ k R1). }
  split; [|split; [|split]].
  - exists s1. split; [exact S1|]. rewrite L. cbn [String.eqb Ascii.eqb Bool.eqb andb].
    cbv iota. rewrite S1. split; [reflexivity|]. apply ReplaceFacts.replace_no_bundle.
  - rewrite L. cbn [String.eqb Ascii.eqb Bool.eqb andb]. cbv iota. rewrite L1F. reflexivity.
  - rewrite L. cbn [String.eqb Ascii.eqb Bool.eqb andb]. cbv iota. rewrite L2C, L1C. reflexivity.
  - intros k H1 H2 H3. rewrite L.
    apply String.eqb_neq in H1, H2, H3. rewrite H1, H2, H3. reflexivity.
Qed.

(* ------------------------------------------------------------------ *)
(** ** [MypycifyBuildExt.build_extension] *)

(** X21: [os.path.splitext(shared_file)[0][3:]] gives back the name
    between the [lib] prefix and the extension of the library file. *)
Theorem shared_name_roundtrip n e
    (H : Py2.splitext_ext ("lib" ++ n ++ e) = e) :
  shared_name_of posixpath ("lib" ++ n ++ e) = n.
Proof.
  unfold shared_name_of, posixpath. cbn [os_splitext_root]. unfold Py4.splitext_root.
  rewrite H. rewrite <- PathFacts.str_app_assoc. rewrite StrFacts.substring_app_prefix.
  cbn [append String.length substring].
  replace (S (S (S (String.length n))) - 3) with (String.length n) by lia.
  apply StrFacts.substring_full.
Qed.

Lemma shared_name_roundtrip_witness :
  Py2.splitext_ext ("lib" ++ "mypyc_abc.cpython-37m-x86_64-linux-gnu" ++ ".so") = ".so" /\
  shared_name_of posixpath ("lib" ++ "mypyc_abc.cpython-37m-x86_64-linux-gnu" ++ ".so")
    = "mypyc_abc.cpython-37m-x86_64-linux-gnu".
Proof.
  assert (H : Py2.splitext_ext ("lib" ++ "mypyc_abc.cpython-37m-x86_64-linux-gnu" ++ ".so")
              = ".so") by reflexivity.
  split; [exact H|]. exact (shared_name_roundtrip _ _ H).
Defined.

Section BE.
Variable ntpath : OsPath.
Variable get_ext_fullpath : string -> string.
Variable compile_ok : MypycifyExtension -> LinkFields -> bool.
Variable tool_ok : list string -> bool.

Local Abbreviation BUILD p ext lf :=
  (build_extension p ntpath get_ext_fullpath compile_ok tool_ok ext lf).

Lemma run_tools_names cmds : compiled_names (fst (run_tools tool_ok cmds)) = [].
Proof.
  induction cmds as [|c rest IH]; [reflexivity|]. cbn [run_tools].
  destruct (tool_ok c); [|reflexivity].
  destruct (run_tools tool_ok rest) as [evs ok]. exact IH.
Qed.

Lemma build_extension_names p ext lf : compiled_names (fst (BUILD p ext lf)) = [ext_name ext].
Proof.
  unfold build_extension.
  assert (L : exists lf1 link ext1, link_setup p ntpath get_ext_fullpath ext lf = (ext1, lf1, link)
                                    /\ ext_name ext1 = ext_name ext).
  { unfold link_setup. destruct (mypyc_shared_target ext) as [t|]; [|eauto].
    destruct (os_split _ _) as [sd sf].
    destruct (String.eqb p "win32"); eauto. }
  destruct L as [lf1 [link [ext1 [-> Hn]]]].
  destruct (compile_ok ext1 lf1); cbn [negb].
  - destruct (String.eqb p "darwin"); [|cbn; rewrite Hn; reflexivity].
    destruct (run_tools tool_ok _) as [evs ok] eqn:E.
    pose proof (run_tools_names (
      ((if is_mypyc_shared ext
        then [["install_name_tool"; "-id"; os_basename (ospath p ntpath) (get_ext_fullpath (ext_name ext));
               get_ext_fullpath (ext_name ext)]] else [])
       ++ match link with
          | Some (rel, sf) =>
              [["install_name_tool"; "-change"; sf;
                os_join (ospath p ntpath) "@loader_path" [rel; sf]; get_ext_fullpath (ext_name ext)]]
          | None => []
          end)%list)) as R.
    rewrite E in R. cbn [fst] in R |- *. unfold compiled_names in R |- *. cbn [flat_map].
    rewrite R, Hn. reflexivity.
  - cbn. rewrite Hn. reflexivity.
Qed.

(** X20: a descriptor that is neither the shared library nor a shim is
    compiled as given, with no tool run, on every platform. *)
Theorem build_extension_plain p ext lf
    (Hs : is_mypyc_shared ext = false) (Ht : mypyc_shared_target ext = None) :
  BUILD p ext lf = ([Compile ext lf], compile_ok ext lf).
Proof.
  unfold build_extension, link_setup. rewrite Ht.
  destruct (compile_ok ext lf); cbn [negb]; [|reflexivity].
  destruct (String.eqb p "darwin"); [|reflexivity].
  rewrite Hs. reflexivity.
Qed.

(** X18: on macOS the shared library is compiled as given, then
    [install_name_tool -id] sets its install name to its base name; the
    build fails if either step fails. *)
Theorem build_extension_darwin_shared ext lf
    (Hs : is_mypyc_shared ext = true) (Ht : mypyc_shared_target ext = None) :
  BUILD "darwin" ext lf =
    let out := get_ext_fullpath (ext_name ext) in
    let cmd := ["install_name_tool"; "-id"; Py.basename out; out] in
    if compile_ok ext lf then ([Compile ext lf; RunTool cmd], tool_ok cmd)
    else ([Compile ext lf], false).
Proof.
  unfold build_extension, link_setup. rewrite Ht.
  destruct (compile_ok ext lf); cbn [negb]; [|reflexivity].
  rewrite Hs. cbn -[Py.basename].
  destruct (tool_ok _); reflexivity.
Qed.

(** X19: on macOS a shim is linked against the shared library's name and
    directory, then [install_name_tool -change] points its reference to
    the library's file at [@loader_path] followed by one [..] per dot of
    the shim's name and the file name; the build fails if either step
    fails. *)
Theorem build_extension_darwin_shim ext t lf
    (Hs : is_mypyc_shared ext = false) (Ht : mypyc_shared_target ext = Some t)
    (Hf : snd (Py4.posix_split (get_ext_fullpath (ext_name t))) <> "") :
  BUILD "darwin" ext lf =
    let dir := fst (Py4.posix_split (get_ext_fullpath (ext_name t))) in
    let f := snd (Py4.posix_split (get_ext_fullpath (ext_name t))) in
    let lf' := MkLink (libraries lf ++ [shared_name_of posixpath f])%list
                      (library_dirs lf ++ [dir])%list (runtime_library_dirs lf) in
    let cmd := ["install_name_tool"; "-change"; f;
                "@loader_path/" ++ parent_steps (Py.count_char "."%char (ext_name ext)) ++ "/" ++ f;
                get_ext_fullpath (ext_name ext)] in
    if compile_ok ext lf' then ([Compile ext lf'; RunTool cmd], tool_ok cmd)
    else ([Compile ext lf'], false).
Proof.
  pose proof (StrFacts.posix_split_tail_no_slash (get_ext_fullpath (ext_name t))) as Hsl.
  unfold build_extension, link_setup. rewrite Ht.
  change (ospath "darwin" ntpath) with posixpath.
  change (os_split posixpath) with Py4.posix_split.
  change (os_join posixpath) with Py.path_join.
  rewrite BuildExtFacts.rt_lib_path_posix, BuildExtFacts.rt_lib_path_steps.
  destruct (Py4.posix_split (get_ext_fullpath (ext_name t))) as [dir f]. cbn [fst snd] in Hf, Hsl |- *.
  cbv zeta. cbn [String.eqb Ascii.eqb Bool.eqb andb]. cbv iota.
  destruct (BuildExtFacts.parent_steps_shape (Py.count_char "."%char (ext_name ext))) as [H1 H2].
  rewrite (BuildExtFacts.loader_path_join _ _ H1 H2 Hf Hsl).
  destruct (compile_ok ext _); cbn [negb]; [|reflexivity].
  rewrite Hs. cbn [app run_tools].
  destruct (tool_ok _); reflexivity.
Qed.

(** X17: off macOS a shim is compiled once, with no tool run. On Windows
    its flags get a [/DMYPYC_LIBRARY] define naming the library file
    relative to the shim, with doubled backslashes, and the link settings
    are unchanged; elsewhere it is linked against the shared library's
    name and directory, and on Linux its run-time search path also gets
    [$ORIGIN/] followed by one [..] per dot of its name. *)
Theorem build_extension_shim_link p ext t lf
    (Ht : mypyc_shared_target ext = Some t) (Hd : p <> "darwin") :
  BUILD p ext lf =
    if String.eqb p "win32" then
      let f := snd (os_split ntpath (get_ext_fullpath (ext_name t))) in
      let ext' := MkExt (ext_name ext) (ext_sources ext) (ext_include_dirs ext)
                    (ext_extra_compile_args ext ++
                     [msvc_library_define (os_join ntpath (rt_lib_path ntpath (ext_name ext)) [f])])%list
                    (is_mypyc_shared ext) (mypyc_shared_target ext) in
      ([Compile ext' lf], compile_ok ext' lf)
    else
      let dir := fst (Py4.posix_split (get_ext_fullpath (ext_name t))) in
      let f := snd (Py4.posix_split (get_ext_fullpath (ext_name t))) in
      let lf' := MkLink (libraries lf ++ [shared_name_of posixpath f])%list
                   (library_dirs lf ++ [dir])%list
                   (if String.eqb p "linux"
                    then (runtime_library_dirs lf ++
                          [String.append "$ORIGIN/" (parent_steps (Py.count_char "."%char (ext_name ext)))])%list
                    else runtime_library_dirs lf) in
      ([Compile ext lf'], compile_ok ext lf').
Proof.
  unfold build_extension, link_setup. rewrite Ht.
  apply String.eqb_neq in Hd.
  destruct (String.eqb p "win32") eqn:Hw.
  - apply String.eqb_eq in Hw. subst p. unfold ospath. cbn [String.eqb Ascii.eqb Bool.eqb andb].
    destruct (os_split ntpath _) as [dir f]. cbn [fst snd].
    cbv zeta. cbn [String.eqb Ascii.eqb Bool.eqb andb]. cbv iota.
    destruct (compile_ok _ lf); reflexivity.
  - unfold ospath. rewrite Hw.
    change (os_split posixpath) with Py4.posix_split.
    rewrite BuildExtFacts.rt_lib_path_posix, BuildExtFacts.rt_lib_path_steps.
    destruct (Py4.posix_split _) as [dir f]. cbn [fst snd]. cbv zeta.
    destruct (String.eqb p "linux");
      (destruct (compile_ok _ _); cbn [negb]; try rewrite Hd; reflexivity).
Qed.

(** X22: the descriptors are built one at a time in list order with
    empty link settings: the compiled names are a prefix of the
    descriptors' names, all of them when the build succeeds, and on
    failure up to and including the first descriptor whose build fails. *)
Theorem build_extensions_order p exts :
  exists k,
    compiled_names (fst (build_extensions p ntpath get_ext_fullpath compile_ok tool_ok exts))
      = firstn k (map ext_name exts) /\
    (snd (build_extensions p ntpath get_ext_fullpath compile_ok tool_ok exts) = true ->
       k = List.length exts /\ Forall (fun e => snd (BUILD p e no_link) = true) exts) /\
    (snd (build_extensions p ntpath get_ext_fullpath compile_ok tool_ok exts) = false ->
       exists pre e post, exts = (pre ++ e :: post)%list /\ k = S (List.length pre) /\
         Forall (fun x => snd (BUILD p x no_link) = true) pre /\
         snd (BUILD p e no_link) = false).
Proof.
  induction exts as [|e rest IH].
  - exists 0. split; [reflexivity|]. split; [intros _; split; [reflexivity|constructor]|].
    intros H. discriminate H.
  - cbn [build_extensions].
    pose proof (build_extension_names p e no_link) as Ne.
    destruct (BUILD p e no_link) as [evs ok] eqn:B. cbn [fst] in Ne.
    destruct ok.
    + destruct IH as [k [Hk [Ht Hf]]].
      destruct (build_extensions p ntpath get_ext_fullpath compile_ok tool_ok rest) as [evs' ok'].
      cbn [fst snd] in *. exists (S k). split.
      { unfold compiled_names in *. rewrite flat_map_app, Ne, Hk. reflexivity. }
      split.
      * intros H. destruct (Ht H) as [-> HF]. split; [reflexivity|].
        constructor; [rewrite B; reflexivity|exact HF].
      * intros H. destruct (Hf H) as [pre [x [post [E [Hk' [Hpre Hx]]]]]].
        exists (e :: pre), x, post. split; [rewrite E; reflexivity|].
        split; [rewrite Hk'; reflexivity|]. split; [|exact Hx].
        constructor; [rewrite B; reflexivity|exact Hpre].
    + exists 1. cbn [fst snd]. split; [exact Ne|]. split; [discriminate|].
      intros _. exists [], e, rest. split; [reflexivity|]. split; [reflexivity|].
      split; [constructor|rewrite B; reflexivity].
Qed.

End BE.

Lemma build_extension_plain_witness :
  is_mypyc_shared (MkExt "foo" ["build/CPy.c"] ["lib-rt"] [] false None) = false /\
  mypyc_shared_target (MkExt "foo" ["build/CPy.c"] ["lib-rt"] [] false None) = None /\
  build_extension "darwin" posixpath sample_fullpath (fun _ _ => true) (fun _ => true)
    (MkExt "foo" ["build/CPy.c"] ["lib-rt"] [] false None) no_link
  = ([Compile (MkExt "foo" ["build/CPy.c"] ["lib-rt"] [] false None) no_link], true).
Proof.
  split; [reflexivity|]. split; [reflexivity|].
  exact (build_extension_plain posixpath sample_fullpath (fun _ _ => true) (fun _ => true)
           "darwin" (MkExt "foo" ["build/CPy.c"] ["lib-rt"] [] false None) no_link
           eq_refl eq_refl).
Defined.

Lemma build_extension_darwin_shared_witness :
  build_extension "darwin" posixpath sample_fullpath (fun _ _ => true) (fun _ => true)
    sample_shared no_link =
    let out := sample_fullpath (ext_name sample_shared) in
    let cmd := ["install_name_tool"; "-id"; Py.basename out; out] in
    if (fun _ _ => true) sample_shared no_link then ([Compile sample_shared no_link; RunTool cmd],
                                                     (fun _ => true) cmd)
    else ([Compile sample_shared no_link], false).
Proof.
  exact (build_extension_darwin_shared posixpath sample_fullpath (fun _ _ => true) (fun _ => true)
           sample_shared no_link eq_refl eq_refl).
Defined.

Lemma build_extension_darwin_shim_witness :
  snd (Py4.posix_split (sample_fullpath (ext_name sample_shared))) = "libmypyc_x.so" /\
  build_extension "darwin" posixpath sample_fullpath (fun _ _ => true) (fun _ => true)
    sample_shim no_link =
  ([Compile sample_shim (MkLink ["mypyc_x"] ["build/lib"] []);
    RunTool ["install_name_tool"; "-change"; "libmypyc_x.so"; "@loader_path/../libmypyc_x.so";
             "build/lib/a/b.so"]], true).
Proof.
  split; [reflexivity|].
  rewrite (build_extension_darwin_shim posixpath sample_fullpath (fun _ _ => true) (fun _ => true)
             sample_shim sample_shared no_link eq_refl eq_refl).
  - reflexivity.
  - discriminate.
Defined.

Lemma build_extension_shim_link_witness :
  build_extension "linux" posixpath sample_fullpath (fun _ _ => true) (fun _ => true)
    sample_shim no_link =
  ([Compile sample_shim (MkLink ["mypyc_x"] ["build/lib"] ["$ORIGIN/.."])], true).
Proof.
  rewrite (build_extension_shim_link posixpath sample_fullpath (fun _ _ => true) (fun _ => true)
             "linux" sample_shim sample_shared no_link eq_refl).
  - reflexivity.
  - discriminate.
Defined.

End Extras.
